(** * YellowTeeth_v3: the tooth-brushing exhibit controller

    A shallow embedding of [YellowTeeth_v3.ino] (vibration trigger,
    temperature sanity gate, heater control loop) and the properties of
    its decision logic.

    Conventions of the embedding.
    - [unsigned long] values are integers in [Z]; every [unsigned long]
      addition and subtraction of the sketch is followed by its reduction
      modulo [2 ^ 32] ([ulong]).
    - [int] values (analog samples, temperatures in whole degrees C) are
      integers in [Z]; the sketch only compares them, except for the
      subtraction and the negation inside [TempSanityCheck], whose results
      are reduced to the width of [int] ([int_wrap]).
    - Global variables are the fields of [State]; the values the sketch
      obtains from the outside during one pass of [loop()] ([analogRead],
      each separate call of [millis()], the two converted temperatures) are
      the fields of [Env].
    - What the Arduino core supplies and the sketch does not define (the
      size of a data pointer, the number of the on-board LED pin) is a
      [Board]. *)

From Stdlib Require Import ZArith Bool List Lia.
From stdpp Require Import base list gmap.
Import ListNotations.

Local Open Scope Z_scope.

(** ** Constants of the sketch *)

Definition NumHeaterPins : Z := 3.
Definition HeaterPin : list Z := [9; 10; 11].
Definition StandByTarget : Z := 25.
Definition HeatTarget : Z := 33.

Definition TriggerPin : Z := 0.
Definition TriggerThreshold : Z := 100.
Definition TriggerTimeframe : Z := 3000.
Definition TriggerFrequency : Z := 2.

Definition TempatureReadDelay : Z := 1000.
Definition LowerBound : Z := -20.
Definition DeviationBound : Z := 10.
Definition HeatOnDuration : Z := 15000.
Definition DebugDelay : Z := 1000.

Definition HIGH : bool := true.
Definition LOW : bool := false.

(** ** Machine arithmetic and arrays *)

(** [sizeof(unsigned long)] is 4 on every Arduino core. *)
Definition sizeof_unsigned_long : Z := 4.

Definition ULONG_MODULUS : Z := 2 ^ (8 * sizeof_unsigned_long).

(** Reduction of an [unsigned long] result. *)
Definition ulong (z : Z) : Z := z mod ULONG_MODULUS.

(** What the core fixes for a given board. *)
Record Board := {
  sizeof_pointer : Z;   (* sizeof of a data pointer, in bytes *)
  sizeof_int : Z;       (* sizeof(int), in bytes *)
  LED_BUILTIN : Z       (* pin number of the on-board LED *)
}.

(** ATmega boards (Uno, Nano, Mega): 16-bit data pointers and [int], LED
    on pin 13. *)
Definition avr : Board :=
  {| sizeof_pointer := 2; sizeof_int := 2; LED_BUILTIN := 13 |}.
(** 32-bit boards (Due, Zero, MKR family): 32-bit pointers and [int]. *)
Definition arm32 : Board :=
  {| sizeof_pointer := 4; sizeof_int := 4; LED_BUILTIN := 13 |}.
(** A data model whose pointers are twice as wide as [unsigned long];
    no Arduino core has it, it serves as the comparison point. *)
Definition wide_pointer : Board :=
  {| sizeof_pointer := 8; sizeof_int := 4; LED_BUILTIN := 13 |}.

(** The range of [int]: [INT_MIN = - INT_HALF], [INT_MAX = INT_HALF - 1]. *)
Definition INT_HALF (b : Board) : Z := 2 ^ (8 * sizeof_int b - 1).
Definition INT_MIN (b : Board) : Z := - INT_HALF b.
Definition INT_MAX (b : Board) : Z := INT_HALF b - 1.

(** The result of an [int] operation as the two's complement hardware
    of these boards leaves it: reduced into [INT_MIN .. INT_MAX]. *)
Definition int_wrap (b : Board) (z : Z) : Z :=
  (z + INT_HALF b) mod (2 * INT_HALF b) - INT_HALF b.

(** The [abs] macro of the Arduino core, [((x)>0?(x):-(x))], on an
    [int]: the negation of [INT_MIN] comes back as [INT_MIN]. *)
Definition abs (b : Board) (x : Z) : Z :=
  if x >? 0 then x else int_wrap b (- x).

(** [a[i]] read.  An index outside the cells of [a] reads 0 here; the
    sketch performs no such read on a board whose pointers are at most 8
    bytes wide. *)
Definition array_get (a : list Z) (i : Z) : Z :=
  if i <? 0 then 0 else default 0 (a !! Z.to_nat i).

Definition flag_get (a : list bool) (i : Z) : bool :=
  if i <? 0 then false else default false (a !! Z.to_nat i).

(** [a[i] = v].  A store through an index outside the cells of [a] lands
    in memory that is not part of the array: the cells of [a] keep their
    values.  Which neighbouring object such a store overwrites depends
    on the memory layout of the build and is not modelled; what is stated
    about the other globals of a pass that may perform one carries the
    hypothesis [pass_in_bounds]. *)
Definition array_set {A : Type} (a : list A) (i : Z) (v : A) : list A :=
  if i <? 0 then a else <[Z.to_nat i := v]> a.

(** [for (int i = 0; i < n; i++) body(i)] over a threaded state. *)
Definition for_upto {S : Type} (n : Z) (body : Z -> S -> S) (s : S) : S :=
  foldl (fun acc i => body (Z.of_nat i) acc) s (seq 0 (Z.to_nat n)).

(** ** Global state and per-iteration inputs *)

Inductive SerialMsg :=
| SetupCompleteMsg
| SanityFailedMsg (left right : Z)
| StatusMsg (target timeleft left : Z) (h0 : bool) (right : Z) (h1 h2 : bool).

Record State := mkState {
  SpikeUp : bool;
  SpikeHistory : list Z;
  LastDebugMsg : Z;
  HeatEnableTime : Z;
  LastTempatureReadTime : Z;
  TargetTempature : Z;
  HeaterEnable : list bool;
  HeatOn : bool;
  LeftTempature : Z;
  RightTempature : Z;
  (* the world the sketch writes to *)
  PinLevel : gmap Z bool;
  SerialOut : list SerialMsg
}.

Definition set_SpikeUp (v : bool) (s : State) : State :=
  mkState v (SpikeHistory s) (LastDebugMsg s) (HeatEnableTime s)
    (LastTempatureReadTime s) (TargetTempature s) (HeaterEnable s) (HeatOn s)
    (LeftTempature s) (RightTempature s) (PinLevel s) (SerialOut s).
Definition set_SpikeHistory (v : list Z) (s : State) : State :=
  mkState (SpikeUp s) v (LastDebugMsg s) (HeatEnableTime s)
    (LastTempatureReadTime s) (TargetTempature s) (HeaterEnable s) (HeatOn s)
    (LeftTempature s) (RightTempature s) (PinLevel s) (SerialOut s).
Definition set_LastDebugMsg (v : Z) (s : State) : State :=
  mkState (SpikeUp s) (SpikeHistory s) v (HeatEnableTime s)
    (LastTempatureReadTime s) (TargetTempature s) (HeaterEnable s) (HeatOn s)
    (LeftTempature s) (RightTempature s) (PinLevel s) (SerialOut s).
Definition set_HeatEnableTime (v : Z) (s : State) : State :=
  mkState (SpikeUp s) (SpikeHistory s) (LastDebugMsg s) v
    (LastTempatureReadTime s) (TargetTempature s) (HeaterEnable s) (HeatOn s)
    (LeftTempature s) (RightTempature s) (PinLevel s) (SerialOut s).
Definition set_LastTempatureReadTime (v : Z) (s : State) : State :=
  mkState (SpikeUp s) (SpikeHistory s) (LastDebugMsg s) (HeatEnableTime s)
    v (TargetTempature s) (HeaterEnable s) (HeatOn s)
    (LeftTempature s) (RightTempature s) (PinLevel s) (SerialOut s).
Definition set_TargetTempature (v : Z) (s : State) : State :=
  mkState (SpikeUp s) (SpikeHistory s) (LastDebugMsg s) (HeatEnableTime s)
    (LastTempatureReadTime s) v (HeaterEnable s) (HeatOn s)
    (LeftTempature s) (RightTempature s) (PinLevel s) (SerialOut s).
Definition set_HeaterEnable (v : list bool) (s : State) : State :=
  mkState (SpikeUp s) (SpikeHistory s) (LastDebugMsg s) (HeatEnableTime s)
    (LastTempatureReadTime s) (TargetTempature s) v (HeatOn s)
    (LeftTempature s) (RightTempature s) (PinLevel s) (SerialOut s).
Definition set_LeftTempature (v : Z) (s : State) : State :=
  mkState (SpikeUp s) (SpikeHistory s) (LastDebugMsg s) (HeatEnableTime s)
    (LastTempatureReadTime s) (TargetTempature s) (HeaterEnable s) (HeatOn s)
    v (RightTempature s) (PinLevel s) (SerialOut s).
Definition set_RightTempature (v : Z) (s : State) : State :=
  mkState (SpikeUp s) (SpikeHistory s) (LastDebugMsg s) (HeatEnableTime s)
    (LastTempatureReadTime s) (TargetTempature s) (HeaterEnable s) (HeatOn s)
    (LeftTempature s) v (PinLevel s) (SerialOut s).

(** [digitalWrite(pin, level)] *)
Definition digitalWrite (pin : Z) (level : bool) (s : State) : State :=
  mkState (SpikeUp s) (SpikeHistory s) (LastDebugMsg s) (HeatEnableTime s)
    (LastTempatureReadTime s) (TargetTempature s) (HeaterEnable s) (HeatOn s)
    (LeftTempature s) (RightTempature s) (<[pin := level]> (PinLevel s))
    (SerialOut s).

(** One diagnostic line on [Serial]. *)
Definition Serial_println (m : SerialMsg) (s : State) : State :=
  mkState (SpikeUp s) (SpikeHistory s) (LastDebugMsg s) (HeatEnableTime s)
    (LastTempatureReadTime s) (TargetTempature s) (HeaterEnable s) (HeatOn s)
    (LeftTempature s) (RightTempature s) (PinLevel s) (SerialOut s ++ [m]).

(** What one pass of [loop()] reads from outside, in program order. *)
Record Env := mkEnv {
  analog : Z;          (* analogRead(TriggerPin) in InputCheck *)
  millis_spike : Z;    (* millis() passed to PushDown *)
  millis_gate : Z;     (* millis() of the temperature cadence test *)
  millis_read : Z;     (* millis() stored in LastTempatureReadTime *)
  temp_left : Z;       (* (int) LeftSensors.getTempC(LeftTemp) *)
  temp_right : Z;      (* (int) RightSensors.getTempC(RightTemp) *)
  millis_trigger : Z;  (* millis() stored in HeatEnableTime *)
  millis_target : Z;   (* millis() of the heat duration test *)
  millis_debug : Z;    (* millis() of the debug cadence test *)
  millis_left : Z;     (* millis() inside the "Heat Time Left" print *)
  millis_stamp : Z     (* millis() stored in LastDebugMsg *)
}.

(** ** The functions of the sketch *)

(** [TempSanityCheck] *)
Definition TempSanityCheck (b : Board) (TempValue1 TempValue2 : Z) : bool :=
  if (TempValue1 <? LowerBound) || (TempValue2 <? LowerBound) then false
  else if abs b (int_wrap b (TempValue1 - TempValue2)) >? DeviationBound
       then false
  else true.

Section OnBoard.

Variable board : Board.

(** [PushDown].  [InputArray] is a parameter of array type, that is a
    pointer, so [sizeof(InputArray)] is the size of a pointer. *)
Definition PushDown_ArraySize : Z :=
  Z.quot (sizeof_pointer board) sizeof_unsigned_long.

Definition PushDown (InputArray : list Z) (InputValue : Z) : list Z :=
  let ArraySize := PushDown_ArraySize in
  let InputArray :=
    for_upto (ArraySize - 1)
      (fun i a => array_set a i (array_get a (i + 1))) InputArray in
  array_set InputArray (ArraySize - 1) InputValue.

(** The test of [InputCheck] on the history after the push. *)
Definition within_timeframe (history : list Z) : bool :=
  ulong (array_get history (TriggerFrequency - 1) - array_get history 0)
    <? ulong TriggerTimeframe.

(** [InputCheck]: returns the result and the updated globals. *)
Definition InputCheck (s : State) (InputValue : Z) (now : Z) : bool * State :=
  let s :=
    if negb (SpikeUp s) && (InputValue >? TriggerThreshold)
    then set_SpikeUp true s else s in
  if SpikeUp s && (InputValue <? TriggerThreshold) then
    let s := set_SpikeHistory (PushDown (SpikeHistory s) now) s in
    let s := set_SpikeUp false s in
    if within_timeframe (SpikeHistory s) then (true, s) else (false, s)
  else (false, s).

(** [setup()]: the globals as their initialisers leave them, then the
    prefill loops of lines 76-82 and the banner.  Not modelled: the
    [pinMode] calls (lines 71-74), the sensor objects and the device
    addresses [LeftTemp] and [RightTemp] that [getAddress] fills (lines
    84-89), and [Serial.begin]; [State] has no field for them. *)
Definition power_on : State :=
  mkState false (replicate (Z.to_nat TriggerFrequency) 0) 0 0 0 0
    (replicate (Z.to_nat NumHeaterPins) false) false 0 0 ∅ [].

Definition setup (s : State) : State :=
  let s :=
    for_upto TriggerFrequency
      (fun i s => set_SpikeHistory (array_set (SpikeHistory s) i 0) s) s in
  let s :=
    for_upto NumHeaterPins
      (fun i s => set_HeaterEnable (array_set (HeaterEnable s) i false) s) s in
  Serial_println SetupCompleteMsg s.

(** Lines 106-112 of [loop()]: stamp the read, fetch both probes. *)
Definition read_temperatures (s : State) (e : Env) : State :=
  let s := set_LastTempatureReadTime (millis_read e) s in
  let s := set_LeftTempature (temp_left e) s in
  set_RightTempature (temp_right e) s.

(** Lines 116-122: the body of the failed sanity branch, up to its
    [return]. *)
Definition sanity_failure (s : State) : State :=
  let s :=
    Serial_println (SanityFailedMsg (LeftTempature s) (RightTempature s)) s in
  for_upto NumHeaterPins
    (fun i s => set_HeaterEnable (array_set (HeaterEnable s) i false) s) s.

(** Lines 127-154: trigger stamp, target temperature, enable flags. *)
Definition heat_control (Triggered : bool) (s : State) (e : Env) : State :=
  let s := if Triggered then set_HeatEnableTime (millis_trigger e) s else s in
  let s :=
    if millis_target e <? ulong (HeatEnableTime s + HeatOnDuration)
    then set_TargetTempature HeatTarget s
    else set_TargetTempature StandByTarget s in
  let s :=
    if LeftTempature s <? TargetTempature s
    then set_HeaterEnable (array_set (HeaterEnable s) 0 true) s
    else set_HeaterEnable (array_set (HeaterEnable s) 0 false) s in
  let s :=
    if RightTempature s <? TargetTempature s
    then set_HeaterEnable (array_set (HeaterEnable s) 1 true) s
    else set_HeaterEnable (array_set (HeaterEnable s) 1 false) s in
  if flag_get (HeaterEnable s) 0 && flag_get (HeaterEnable s) 1
  then set_HeaterEnable (array_set (HeaterEnable s) 2 true) s
  else set_HeaterEnable (array_set (HeaterEnable s) 2 false) s.

(** Lines 157-165: drive the heater pins from the flags. *)
Definition drive_outputs (s : State) : State :=
  for_upto NumHeaterPins
    (fun i s =>
       if flag_get (HeaterEnable s) i then
         let s := digitalWrite (array_get HeaterPin i) HIGH s in
         digitalWrite (LED_BUILTIN board) HIGH s
       else digitalWrite (array_get HeaterPin i) LOW s) s.

(** Lines 167-186: the periodic status line. *)
Definition debug_report (s : State) (e : Env) : State :=
  if millis_debug e >? ulong (LastDebugMsg s + DebugDelay) then
    let s :=
      Serial_println
        (StatusMsg (TargetTempature s)
           (ulong (HeatEnableTime s + HeatOnDuration - millis_left e))
           (LeftTempature s) (flag_get (HeaterEnable s) 0)
           (RightTempature s) (flag_get (HeaterEnable s) 1)
           (flag_get (HeaterEnable s) 2)) s in
    set_LastDebugMsg (millis_stamp e) s
  else s.

(** [loop()]: one pass. *)
Definition loop (s : State) (e : Env) : State :=
  let '(Triggered, s) := InputCheck s (analog e) (millis_spike e) in
  let s := digitalWrite (LED_BUILTIN board) LOW s in
  let rest s := debug_report (drive_outputs (heat_control Triggered s e)) e in
  if millis_gate e >? ulong (LastTempatureReadTime s + TempatureReadDelay) then
    let s := read_temperatures s e in
    if Bool.eqb (TempSanityCheck board (LeftTempature s) (RightTempature s))
         false
    then sanity_failure s (* return *)
    else rest s
  else rest s.

(** Successive passes of [loop()]. *)
Fixpoint run (s : State) (es : list Env) : State :=
  match es with
  | [] => s
  | e :: es => run (loop s e) es
  end.

(** *** Vocabulary for the statements *)

(** [InputCheck()] returns true in this pass. *)
Definition triggered (s : State) (e : Env) : bool :=
  fst (InputCheck s (analog e) (millis_spike e)).

(** The pass performs a temperature read (test of line 105). *)
Definition read_due (s : State) (e : Env) : bool :=
  millis_gate e >? ulong (LastTempatureReadTime s + TempatureReadDelay).

(** The pass performs a temperature read and the readings fail
    [TempSanityCheck] (the pass ends at the [return] of line 123). *)
Definition sanity_rejects (s : State) (e : Env) : bool :=
  read_due s e && negb (TempSanityCheck board (temp_left e) (temp_right e)).

(** No pass of [es], started from [s], has [InputCheck()] return true. *)
Fixpoint quiet (s : State) (es : list Env) : bool :=
  match es with
  | [] => true
  | e :: es => negb (triggered s e) && quiet (loop s e) es
  end.

End OnBoard.

(** The two arrays have the sizes of their declarations. *)
Definition wf_state (s : State) : Prop :=
  length (SpikeHistory s) = Z.to_nat TriggerFrequency /\
  length (HeaterEnable s) = Z.to_nat NumHeaterPins.

(** The setpoint as the specification words it, a function of the time
    elapsed since the last accepted trigger; compared with the test of
    lines 131-135 in [heat_window_elapsed]. *)
Definition target_for (elapsed : Z) : Z :=
  if elapsed <? HeatOnDuration then HeatTarget else StandByTarget.

(** The push as the specification words it, to be compared with
    [PushDown]: on a full window the oldest entry (index 0) leaves, the
    others move one place towards index 0, the new one is last. *)
Definition fifo_push (window : list Z) (t : Z) : list Z :=
  tail window ++ [t].

(** [PushDown] on this board reads and stores inside the array it is
    given: [ArraySize] is at least one and at most the number of cells. *)
Definition stores_in_bounds (b : Board) (a : list Z) : bool :=
  (1 <=? PushDown_ArraySize b)
  && (PushDown_ArraySize b <=? Z.of_nat (length a)).

(** The pass writes no memory outside [SpikeHistory]: its call of
    [InputCheck] completes no spike, so that [PushDown] is not called, or
    [PushDown] stores in bounds. *)
Definition pass_in_bounds (b : Board) (s : State) (e : Env) : bool :=
  negb (SpikeUp s && (analog e <? TriggerThreshold))
  || stores_in_bounds b (SpikeHistory s).

(** The state in which the temperature cadence test of line 105 runs. *)
Definition after_input (b : Board) (s : State) (e : Env) : State :=
  digitalWrite (LED_BUILTIN b) LOW
    (snd (InputCheck b s (analog e) (millis_spike e))).

(** *** Concrete passes, for the examples *)

(** A pass so short that every [millis()] call in it returns [t]. *)
Definition pass_at (t sample left right : Z) : Env :=
  mkEnv sample t t t left right t t t t t.

(** After [setup()], one pass with the signal above the threshold. *)
Definition spike_open (b : Board) : State :=
  loop b (setup power_on) (pass_at 500 150 22 23).

(** A board 1000 ms before its [millis()] counter wraps, a spike open. *)
Definition near_wrap : State :=
  set_SpikeUp true
    (set_LastTempatureReadTime 4294966000
       (set_HeatEnableTime 4294900000 (setup power_on))).

(** ** Properties *)

(** *** Arithmetic and array helpers *)

Lemma ULONG_MODULUS_value : ULONG_MODULUS = 4294967296.
Proof. reflexivity. Qed.

Lemma ulong_small (z : Z) : 0 <= z < ULONG_MODULUS -> ulong z = z.
Proof. intros H. unfold ulong. apply Z.mod_small. exact H. Qed.

Lemma ulong_range (z : Z) : 0 <= ulong z < ULONG_MODULUS.
Proof. unfold ulong. apply Z.mod_pos_bound. reflexivity. Qed.

Lemma INT_HALF_nonneg (b : Board) : 0 <= INT_HALF b.
Proof. unfold INT_HALF. apply Z.pow_nonneg. lia. Qed.

Lemma int_wrap_small (b : Board) (z : Z) :
  INT_MIN b <= z <= INT_MAX b -> int_wrap b z = z.
Proof.
  unfold INT_MIN, INT_MAX, int_wrap. intros H.
  rewrite Z.mod_small by lia. lia.
Qed.

(** The wrapped negation: [INT_MIN] is its own negative, every other
    [int] has the usual one. *)
Lemma int_wrap_opp (b : Board) (z : Z) :
  0 < INT_HALF b ->
  (int_wrap b z = INT_MIN b /\ int_wrap b (- z) = INT_MIN b)
  \/ (INT_MIN b < int_wrap b z <= INT_MAX b
      /\ int_wrap b (- z) = - int_wrap b z).
Proof.
  intros Hpos. unfold INT_MIN, INT_MAX, int_wrap.
  set (H := INT_HALF b) in *. set (m := 2 * H).
  pose proof (Z.div_mod (z + H) m ltac:(unfold m; lia)) as Hdiv.
  pose proof (Z.mod_pos_bound (z + H) m ltac:(unfold m; lia)) as Hr.
  set (q := (z + H) / m) in *. set (r := (z + H) mod m) in *.
  destruct (Z.eq_dec r 0) as [Hr0 | Hr0].
  - left. split; [lia|].
    replace (- z + H) with (0 + (1 - q) * m) by (unfold m in *; lia).
    rewrite Z_mod_plus_full, Z.mod_0_l by (unfold m; lia). lia.
  - right. split; [lia|].
    replace (- z + H) with ((m - r) + (- q) * m) by (unfold m in *; lia).
    rewrite Z_mod_plus_full, Z.mod_small by lia. unfold m. lia.
Qed.

Lemma abs_wrap_opp (b : Board) (z : Z) :
  abs b (int_wrap b (- z)) = abs b (int_wrap b z).
Proof.
  pose proof (INT_HALF_nonneg b) as Hnn.
  destruct (Z.eq_dec (INT_HALF b) 0) as [H0 | H0].
  - unfold abs, int_wrap. rewrite H0. simpl. rewrite !Z.mod_0_r.
    repeat match goal with
           | |- context [?x >? 0] => destruct (Z.gtb_spec x 0)
           end; lia.
  - destruct (int_wrap_opp b z ltac:(lia)) as [[H1 H2] | [H1 H2]].
    + now rewrite H1, H2.
    + rewrite H2. unfold abs.
      destruct (Z.gtb_spec (int_wrap b z) 0);
        destruct (Z.gtb_spec (- int_wrap b z) 0); try lia.
      * rewrite Z.opp_involutive. apply int_wrap_small.
        unfold INT_MIN, INT_MAX in *. lia.
      * symmetry. apply int_wrap_small. unfold INT_MIN, INT_MAX in *. lia.
      * assert (Hz : int_wrap b z = 0) by lia. rewrite Hz. reflexivity.
Qed.

(** *** TempSanityCheck *)

(** As long as the two readings are less than [INT_HALF] apart, the
    subtraction and the negation stay inside [int] and [TempSanityCheck]
    is the test on the lower bound and on the distance. *)
Lemma TempSanityCheck_exact (b : Board) (x y : Z) :
  Z.abs (x - y) < INT_HALF b ->
  TempSanityCheck b x y
  = negb ((x <? LowerBound) || (y <? LowerBound)
          || (Z.abs (x - y) >? DeviationBound)).
Proof.
  intros Hclose. unfold TempSanityCheck.
  destruct ((x <? LowerBound) || (y <? LowerBound)); [reflexivity|]. simpl.
  rewrite (int_wrap_small b (x - y)) by (unfold INT_MIN, INT_MAX; lia).
  assert (Habs : abs b (x - y) = Z.abs (x - y)).
  { unfold abs. destruct (Z.gtb_spec (x - y) 0); [lia|].
    rewrite int_wrap_small by (unfold INT_MIN, INT_MAX; lia). lia. }
  rewrite Habs. now destruct (Z.abs (x - y) >? DeviationBound).
Qed.


(** X2. [TempSanityCheck] does not depend on the order of its two
    readings, on any board and for any two values, the ones whose
    difference overflows included. *)
Lemma TempSanityCheck_sym (b : Board) (x y : Z) :
  TempSanityCheck b x y = TempSanityCheck b y x.
Proof.
  unfold TempSanityCheck. rewrite orb_comm.
  replace (y - x) with (- (x - y)) by lia.
  now rewrite abs_wrap_opp.
Qed.

Example sanity_accepts_22_23 : TempSanityCheck avr 22 23 = true.
Proof. reflexivity. Qed.
Example sanity_rejects_low : TempSanityCheck avr (-25) 20 = false.
Proof. reflexivity. Qed.
Example sanity_rejects_gap : TempSanityCheck avr 22 35 = false.
Proof. reflexivity. Qed.

(** *** PushDown *)

Lemma array_get_nat (a : list Z) (i : nat) :
  array_get a (Z.of_nat i) = default 0 (a !! i).
Proof.
  unfold array_get. destruct (Z.ltb_spec (Z.of_nat i) 0); [lia|].
  now rewrite Nat2Z.id.
Qed.

Lemma array_set_nat {A : Type} (a : list A) (i : nat) (v : A) :
  array_set a (Z.of_nat i) v = <[i := v]> a.
Proof.
  unfold array_set. destruct (Z.ltb_spec (Z.of_nat i) 0); [lia|].
  now rewrite Nat2Z.id.
Qed.

Lemma array_set_negative {A : Type} (a : list A) (i : Z) (v : A) :
  i < 0 -> array_set a i v = a.
Proof. intros H. unfold array_set. destruct (Z.ltb_spec i 0); [reflexivity|lia]. Qed.

Lemma array_set_length {A : Type} (a : list A) (i : Z) (v : A) :
  length (array_set a i v) = length a.
Proof. unfold array_set. destruct (i <? 0); [reflexivity|apply length_insert]. Qed.

(** After [k] rounds of the copy loop the first [k] cells hold their right
    neighbours and the others are untouched. *)
Lemma PushDown_copy_rounds (a : list Z) (k : nat) :
  (k < length a)%nat ->
  foldl (fun acc i => array_set acc (Z.of_nat i) (array_get acc (Z.of_nat i + 1)))
    a (seq 0 k)
  = take k (drop 1 a) ++ drop k a.
Proof.
  induction k as [|k IH]; intros Hk.
  - reflexivity.
  - rewrite seq_S, foldl_app, IH by lia. simpl.
    destruct (lookup_lt_is_Some_2 a (S k) Hk) as [x Hx].
    destruct (lookup_lt_is_Some_2 a k ltac:(lia)) as [y Hy].
    assert (Hlen : length (take k (drop 1 a)) = k)
      by (rewrite length_take, length_drop; lia).
    replace (Z.of_nat k + 1) with (Z.of_nat (S k)) by lia.
    rewrite array_get_nat, array_set_nat.
    rewrite lookup_app_r, Hlen by lia.
    replace (S k - k)%nat with 1%nat by lia.
    rewrite lookup_drop, Nat.add_1_r, Hx. simpl.
    rewrite insert_app_r_alt, Hlen, Nat.sub_diag by lia.
    rewrite (drop_S a y k Hy). simpl.
    rewrite (take_S_r (drop 1 a) k x) by (now rewrite lookup_drop).
    now rewrite <- app_assoc.
Qed.

(** X1. Had [ArraySize] been the number of cells, [PushDown] would be the
    first-in first-out push, for an array of any size: the copy loop and
    the final store are right, only the size they are given is not. *)
Lemma PushDown_fifo_when_sized (b : Board) (a : list Z) (v : Z) :
  a <> [] ->
  PushDown_ArraySize b = Z.of_nat (length a) ->
  PushDown b a v = fifo_push a v.
Proof.
  intros Hne Hsize. unfold PushDown, for_upto. rewrite Hsize.
  assert (Hpos : (0 < length a)%nat) by (destruct a; simpl; [congruence|lia]).
  replace (Z.of_nat (length a) - 1) with (Z.of_nat (length a - 1)) by lia.
  rewrite Nat2Z.id, PushDown_copy_rounds by lia.
  rewrite array_set_nat.
  rewrite take_ge by (rewrite length_drop; lia).
  rewrite insert_app_r_alt by (rewrite length_drop; lia).
  rewrite length_drop, Nat.sub_diag.
  destruct (lookup_lt_is_Some_2 a (length a - 1) ltac:(lia)) as [y Hy].
  rewrite (drop_S a y _ Hy).
  replace (S (length a - 1)) with (length a) by lia.
  rewrite drop_all. simpl. unfold fifo_push.
  destruct a; [congruence|reflexivity].
Qed.

Lemma PushDown_ArraySize_avr : PushDown_ArraySize avr = 0.
Proof. reflexivity. Qed.

Lemma PushDown_ArraySize_arm32 : PushDown_ArraySize arm32 = 1.
Proof. reflexivity. Qed.

(** With a pointer narrower than [unsigned long], [ArraySize] is 0: the
    copy loop does not run and the store goes to index -1, so no cell of
    the array changes. *)
Lemma PushDown_narrow_pointer (b : Board) (a : list Z) (v : Z) :
  0 <= sizeof_pointer b < sizeof_unsigned_long ->
  PushDown b a v = a.
Proof.
  intros H. unfold PushDown, PushDown_ArraySize.
  rewrite Z.quot_small by exact H. simpl.
  unfold for_upto. simpl. now apply array_set_negative.
Qed.

(** With a pointer as wide as [unsigned long], [ArraySize] is 1: the copy
    loop does not run and the new value overwrites cell 0. *)
Lemma PushDown_equal_pointer (b : Board) (a : list Z) (v : Z) :
  sizeof_pointer b = sizeof_unsigned_long ->
  PushDown b a v = <[0%nat := v]> a.
Proof.
  intros H. unfold PushDown, PushDown_ArraySize. rewrite H. reflexivity.
Qed.

Lemma PushDown_length (b : Board) (a : list Z) (v : Z) :
  length (PushDown b a v) = length a.
Proof.
  unfold PushDown, for_upto. rewrite array_set_length.
  generalize (seq 0 (Z.to_nat (PushDown_ArraySize b - 1))). intros l.
  revert a. induction l as [|i l IH]; intros a; simpl; [reflexivity|].
  now rewrite IH, array_set_length.
Qed.

(** C8 (the sketch falls short of it). On the two-cell [SpikeHistory],
    [PushDown] is not the first-in first-out push: on an ATmega board the
    window [[10; 20]] is left as it is, on a 32-bit board the new time
    stamp lands in cell 0 and cell 1 is never written, where the push
    would give [[20; 30]]. *)
Theorem PushDown_is_not_fifo_push :
  fifo_push [10; 20] 30 = [20; 30]
  /\ PushDown avr [10; 20] 30 = [10; 20]
  /\ PushDown arm32 [10; 20] 30 = [30; 20].
Proof. repeat split. Qed.

Lemma PushDown_wide_pointer_pushes :
  PushDown wide_pointer [10; 20] 30 = fifo_push [10; 20] 30.
Proof.
  apply (PushDown_fifo_when_sized wide_pointer [10; 20] 30);
    [discriminate | reflexivity].
Defined.

(** *** InputCheck *)

(** [InputCheck] writes [SpikeUp] and [SpikeHistory] and nothing else. *)
Lemma InputCheck_frame (b : Board) (s : State) (v now : Z) :
  let s' := snd (InputCheck b s v now) in
  LastDebugMsg s' = LastDebugMsg s
  /\ HeatEnableTime s' = HeatEnableTime s
  /\ LastTempatureReadTime s' = LastTempatureReadTime s
  /\ TargetTempature s' = TargetTempature s
  /\ HeaterEnable s' = HeaterEnable s
  /\ LeftTempature s' = LeftTempature s
  /\ RightTempature s' = RightTempature s
  /\ PinLevel s' = PinLevel s
  /\ SerialOut s' = SerialOut s.
Proof.
  unfold InputCheck.
  destruct (negb (SpikeUp s) && (v >? TriggerThreshold)); simpl;
    repeat match goal with |- context [if ?c then _ else _] => destruct c end;
    simpl; repeat split.
Qed.

(** The rising edge cannot complete a spike in the same call: a call
    completes a spike exactly when [SpikeUp] was set on entry and the
    sample is below the threshold. *)
Lemma InputCheck_completes (b : Board) (s : State) (v now : Z) :
  InputCheck b s v now =
    if SpikeUp s && (v <? TriggerThreshold) then
      let h := PushDown b (SpikeHistory s) now in
      (within_timeframe h, set_SpikeUp false (set_SpikeHistory h s))
    else if negb (SpikeUp s) && (v >? TriggerThreshold) then
      (false, set_SpikeUp true s)
    else (false, s).
Proof.
  unfold InputCheck.
  destruct (SpikeUp s) eqn:Hup; simpl.
  - rewrite Hup. simpl. destruct (v <? TriggerThreshold); [|reflexivity].
    simpl. now destruct (within_timeframe _).
  - destruct (Z.gtb_spec v TriggerThreshold); simpl.
    + destruct (Z.ltb_spec v TriggerThreshold); [lia|reflexivity].
    + rewrite Hup. reflexivity.
Qed.

(** C1 (as amended). Whatever state the earlier samples left, a call of
    [InputCheck] declares a trigger if and only if it completes a spike
    ([SpikeUp] was set and the sample is strictly below
    [TriggerThreshold]) and, on the history as [PushDown] leaves it,
    [SpikeHistory[TriggerFrequency-1] - SpikeHistory[0]], taken as an
    [unsigned long], is strictly less than [TriggerTimeframe].  A history
    [[0; 1500]] passes that test (1500 < 3000), and so does [[0; 1000]]:
    a priming zero counts as a time stamp. *)
Theorem InputCheck_trigger_iff (b : Board) (s : State) (v now : Z) :
  let h := PushDown b (SpikeHistory s) now in
  (fst (InputCheck b s v now) = true <->
     SpikeUp s = true /\ v < TriggerThreshold /\
     ulong (array_get h (TriggerFrequency - 1) - array_get h 0)
       < TriggerTimeframe)
  /\ within_timeframe [0; 1500] = true
  /\ within_timeframe [0; 1000] = true.
Proof.
  simpl. split; [|split; reflexivity].
  rewrite InputCheck_completes.
  destruct (SpikeUp s); simpl.
  - destruct (Z.ltb_spec v TriggerThreshold); simpl.
    + unfold within_timeframe.
      replace (ulong TriggerTimeframe) with TriggerTimeframe by reflexivity.
      rewrite Z.ltb_lt. intuition.
    + split; [discriminate|]. intros (_ & H' & _). lia.
  - destruct (v >? TriggerThreshold); simpl;
      (split; [discriminate|]; intros (H' & _); discriminate).
Qed.

(** C1 (as stated) fails. After [setup()], the samples 150 at t=0 and 50
    at t=1000 make one full spike.  On an ATmega board, and equally with a
    [PushDown] that pushes properly, that first spike already fires (0 or
    1000 is less than 3000); on a 32-bit board neither it nor a second
    spike completing at t=1500 fires. *)
Lemma first_spike_scenario_fails :
  let rising b := snd (InputCheck b (setup power_on) 150 0) in
  let first b := InputCheck b (rising b) 50 1000 in
  let second b := InputCheck b (snd (InputCheck b (snd (first b)) 150 1200)) 50 1500 in
  fst (first avr) = true
  /\ (SpikeHistory (snd (first wide_pointer)) = [0; 1000]
      /\ fst (first wide_pointer) = true)
  /\ (fst (first arm32) = false
      /\ SpikeHistory (snd (second arm32)) = [1500; 0]
      /\ fst (second arm32) = false).
Proof. repeat split. Qed.

(** C9 (as amended). A sample equal to [TriggerThreshold] neither starts
    nor completes a spike: the call returns false and leaves every global,
    [SpikeUp] and [SpikeHistory] included, as it was. *)
Theorem threshold_sample_is_ignored (b : Board) (s : State) (now : Z) :
  InputCheck b s TriggerThreshold now = (false, s).
Proof.
  rewrite InputCheck_completes.
  rewrite Z.ltb_irrefl, Z.gtb_ltb, Z.ltb_irrefl, !andb_false_r. reflexivity.
Qed.

(** C9 (as stated) fails. With [SpikeUp] set, the sample 100 leaves the
    spike open and the history untouched, where the sample 99 closes the
    spike and stores the time stamp. *)
Lemma threshold_sample_does_not_complete :
  let s := set_SpikeUp true (setup power_on) in
  (SpikeUp (snd (InputCheck arm32 s 100 7)) = true
   /\ SpikeHistory (snd (InputCheck arm32 s 100 7)) = [0; 0])
  /\ (SpikeUp (snd (InputCheck arm32 s 99 7)) = false
      /\ SpikeHistory (snd (InputCheck arm32 s 99 7)) = [7; 0])
  /\ (fst (InputCheck avr s 100 7) = false
      /\ fst (InputCheck avr s 99 7) = true).
Proof. repeat split. Qed.

(** *** One pass of loop() *)

(** The two ways through [loop()]: the pass that ends at the [return] of
    the failed sanity branch, and the pass that runs to the end. *)
Lemma loop_rejected (b : Board) (s : State) (e : Env) :
  sanity_rejects b s e = true ->
  loop b s e = sanity_failure (read_temperatures (after_input b s e) e).
Proof.
  unfold sanity_rejects, read_due, loop, after_input.
  destruct (InputCheck_frame b s (analog e) (millis_spike e))
    as (_ & _ & Hlrt & _).
  destruct (InputCheck b s (analog e) (millis_spike e)) as [t s0].
  simpl in *. rewrite Hlrt. intros [Hdue Hbad]%andb_true_iff.
  rewrite Hdue. apply negb_true_iff in Hbad. now rewrite Hbad.
Qed.

Lemma loop_completed (b : Board) (s : State) (e : Env) :
  sanity_rejects b s e = false ->
  loop b s e =
    debug_report
      (drive_outputs b
         (heat_control (triggered b s e)
            (if read_due s e then read_temperatures (after_input b s e) e
             else after_input b s e) e)) e.
Proof.
  unfold sanity_rejects, read_due, loop, after_input, triggered.
  destruct (InputCheck_frame b s (analog e) (millis_spike e))
    as (_ & _ & Hlrt & _).
  destruct (InputCheck b s (analog e) (millis_spike e)) as [t s0].
  simpl in *. rewrite Hlrt.
  destruct (millis_gate e >? _); simpl; [|reflexivity].
  intros Hok%negb_false_iff. now rewrite Hok.
Qed.

Lemma after_input_frame (b : Board) (s : State) (e : Env) :
  let s' := after_input b s e in
  LastDebugMsg s' = LastDebugMsg s
  /\ HeatEnableTime s' = HeatEnableTime s
  /\ LastTempatureReadTime s' = LastTempatureReadTime s
  /\ TargetTempature s' = TargetTempature s
  /\ HeaterEnable s' = HeaterEnable s
  /\ LeftTempature s' = LeftTempature s
  /\ RightTempature s' = RightTempature s
  /\ PinLevel s' = <[LED_BUILTIN b := LOW]> (PinLevel s)
  /\ SerialOut s' = SerialOut s.
Proof.
  unfold after_input.
  destruct (InputCheck_frame b s (analog e) (millis_spike e))
    as (H1 & H2 & H3 & H4 & H5 & H6 & H7 & H8 & H9).
  simpl in *. rewrite H8. repeat split; assumption.
Qed.

(** A three-cell flag array, cell by cell. *)
Lemma three_flags (l : list bool) :
  length l = Z.to_nat NumHeaterPins -> exists x y z, l = [x; y; z].
Proof.
  destruct l as [|x [|y [|z [|w l]]]]; simpl; intros H; try discriminate.
  now exists x, y, z.
Qed.

(** The clearing loop of the failed sanity branch. *)
Lemma sanity_failure_fields (s : State) :
  length (HeaterEnable s) = Z.to_nat NumHeaterPins ->
  let s' := sanity_failure s in
  HeaterEnable s' = [false; false; false]
  /\ SpikeUp s' = SpikeUp s
  /\ SpikeHistory s' = SpikeHistory s
  /\ LastDebugMsg s' = LastDebugMsg s
  /\ HeatEnableTime s' = HeatEnableTime s
  /\ LastTempatureReadTime s' = LastTempatureReadTime s
  /\ TargetTempature s' = TargetTempature s
  /\ LeftTempature s' = LeftTempature s
  /\ RightTempature s' = RightTempature s
  /\ PinLevel s' = PinLevel s
  /\ SerialOut s' =
       SerialOut s ++ [SanityFailedMsg (LeftTempature s) (RightTempature s)].
Proof.
  intros (x & y & z & Hl)%three_flags.
  unfold sanity_failure, for_upto. simpl. rewrite Hl. repeat split.
Qed.

(** The control part, as one assignment to the globals it writes. *)
Lemma heat_control_eq (t : bool) (s : State) (e : Env) :
  length (HeaterEnable s) = Z.to_nat NumHeaterPins ->
  heat_control t s e =
    let het := if t then millis_trigger e else HeatEnableTime s in
    let tgt :=
      if millis_target e <? ulong (het + HeatOnDuration)
      then HeatTarget else StandByTarget in
    let l := LeftTempature s <? tgt in
    let r := RightTempature s <? tgt in
    mkState (SpikeUp s) (SpikeHistory s) (LastDebugMsg s) het
      (LastTempatureReadTime s) tgt [l; r; l && r] (HeatOn s)
      (LeftTempature s) (RightTempature s) (PinLevel s) (SerialOut s).
Proof.
  intros (x & y & z & Hl)%three_flags.
  destruct s; simpl in *; subst. unfold heat_control.
  destruct t; simpl.
  - destruct (millis_target e <? ulong (millis_trigger e + HeatOnDuration));
      simpl; destruct (LeftTempature0 <? _);
      simpl; destruct (RightTempature0 <? _); reflexivity.
  - destruct (millis_target e <? ulong (HeatEnableTime0 + HeatOnDuration));
      simpl; destruct (LeftTempature0 <? _);
      simpl; destruct (RightTempature0 <? _); reflexivity.
Qed.

(** The stamp and the target do not depend on the flag array. *)
Lemma heat_control_stamp (t : bool) (s : State) (e : Env) :
  HeatEnableTime (heat_control t s e)
  = (if t then millis_trigger e else HeatEnableTime s).
Proof.
  unfold heat_control. destruct s; simpl. destruct t; simpl;
    repeat match goal with
           | |- context [if ?c then _ else _] => destruct c; simpl
           end; reflexivity.
Qed.

Lemma heat_control_target (t : bool) (s : State) (e : Env) :
  TargetTempature (heat_control t s e)
  = (if millis_target e
          <? ulong (HeatEnableTime (heat_control t s e) + HeatOnDuration)
     then HeatTarget else StandByTarget).
Proof.
  rewrite heat_control_stamp.
  unfold heat_control. destruct s; simpl. destruct t; simpl.
  - destruct (millis_target e <? ulong (millis_trigger e + HeatOnDuration));
      simpl;
      repeat match goal with
             | |- context [if ?c then _ else _] => destruct c; simpl
             end; reflexivity.
  - destruct (millis_target e <? ulong (HeatEnableTime0 + HeatOnDuration));
      simpl;
      repeat match goal with
             | |- context [if ?c then _ else _] => destruct c; simpl
             end; reflexivity.
Qed.

Lemma LED_apart (b : Board) :
  LED_BUILTIN b ∉ HeaterPin ->
  LED_BUILTIN b <> 9 /\ LED_BUILTIN b <> 10 /\ LED_BUILTIN b <> 11.
Proof. unfold HeaterPin. rewrite !not_elem_of_cons. tauto. Qed.

(** The output loop writes pins only, and each heater pin ends at the
    level of its flag. *)
Lemma drive_outputs_frame (b : Board) (s : State) :
  length (HeaterEnable s) = Z.to_nat NumHeaterPins ->
  let s' := drive_outputs b s in
  HeaterEnable s' = HeaterEnable s
  /\ HeatEnableTime s' = HeatEnableTime s
  /\ TargetTempature s' = TargetTempature s
  /\ LeftTempature s' = LeftTempature s
  /\ RightTempature s' = RightTempature s
  /\ LastDebugMsg s' = LastDebugMsg s
  /\ SerialOut s' = SerialOut s
  /\ SpikeHistory s' = SpikeHistory s.
Proof.
  intros (x & y & z & Hl)%three_flags.
  destruct s; simpl in *; subst. unfold drive_outputs, for_upto.
  destruct x, y, z; simpl; repeat split.
Qed.

Lemma drive_outputs_pins (b : Board) (s : State) (i : Z) :
  length (HeaterEnable s) = Z.to_nat NumHeaterPins ->
  LED_BUILTIN b ∉ HeaterPin ->
  0 <= i < NumHeaterPins ->
  PinLevel (drive_outputs b s) !! array_get HeaterPin i
  = Some (flag_get (HeaterEnable s) i).
Proof.
  intros (x & y & z & Hl)%three_flags (H9 & H10 & H11)%LED_apart Hi.
  assert (Hcases : i = 0 \/ i = 1 \/ i = 2) by (unfold NumHeaterPins in Hi; lia).
  destruct s; simpl in *; subst. unfold drive_outputs, for_upto.
  destruct Hcases as [-> | [-> | ->]];
    destruct x, y, z; simpl; unfold HIGH, LOW; simplify_map_eq; reflexivity.
Qed.

Lemma debug_report_frame (s : State) (e : Env) :
  let s' := debug_report s e in
  HeaterEnable s' = HeaterEnable s
  /\ HeatEnableTime s' = HeatEnableTime s
  /\ TargetTempature s' = TargetTempature s
  /\ LeftTempature s' = LeftTempature s
  /\ RightTempature s' = RightTempature s
  /\ PinLevel s' = PinLevel s
  /\ SpikeHistory s' = SpikeHistory s.
Proof.
  unfold debug_report. destruct (millis_debug e >? _); simpl; repeat split.
Qed.

(** What a pass that runs to the end leaves in the control globals. *)
Lemma loop_completed_fields (b : Board) (s : State) (e : Env) :
  wf_state s ->
  sanity_rejects b s e = false ->
  let s' := loop b s e in
  let l := if read_due s e then temp_left e else LeftTempature s in
  let r := if read_due s e then temp_right e else RightTempature s in
  HeatEnableTime s' =
    (if triggered b s e then millis_trigger e else HeatEnableTime s)
  /\ TargetTempature s' =
       (if millis_target e <? ulong (HeatEnableTime s' + HeatOnDuration)
        then HeatTarget else StandByTarget)
  /\ LeftTempature s' = l
  /\ RightTempature s' = r
  /\ HeaterEnable s' =
       [l <? TargetTempature s'; r <? TargetTempature s';
        (l <? TargetTempature s') && (r <? TargetTempature s')].
Proof.
  intros [_ Hlen] Hok. simpl. rewrite (loop_completed b s e Hok).
  destruct (after_input_frame b s e)
    as (_ & Hhet & _ & _ & Hhe & Hlt & Hrt & _).
  set (s1 := if read_due s e then read_temperatures (after_input b s e) e
             else after_input b s e).
  assert (H1 : HeaterEnable s1 = HeaterEnable s
               /\ HeatEnableTime s1 = HeatEnableTime s
               /\ LeftTempature s1 =
                    (if read_due s e then temp_left e else LeftTempature s)
               /\ RightTempature s1 =
                    (if read_due s e then temp_right e else RightTempature s)).
  { unfold s1. destruct (read_due s e); simpl; auto. }
  destruct H1 as (H1e & H1t & H1l & H1r).
  assert (Hlen1 : length (HeaterEnable s1) = Z.to_nat NumHeaterPins)
    by now rewrite H1e.
  set (s2 := heat_control (triggered b s e) s1 e).
  assert (Hlen2 : length (HeaterEnable s2) = Z.to_nat NumHeaterPins).
  { unfold s2. rewrite heat_control_eq by exact Hlen1. reflexivity. }
  destruct (debug_report_frame (drive_outputs b s2) e)
    as (D1 & D2 & D3 & D4 & D5 & _).
  destruct (drive_outputs_frame b s2 Hlen2)
    as (O1 & O2 & O3 & O4 & O5 & _).
  simpl in *. rewrite D1, D2, D3, D4, D5, O1, O2, O3, O4, O5.
  pose proof (heat_control_stamp (triggered b s e) s1 e) as Hs.
  pose proof (heat_control_target (triggered b s e) s1 e) as Ht.
  fold s2 in Hs, Ht. rewrite H1t in Hs.
  split; [exact Hs|]. split; [exact Ht|].
  unfold s2 at 1 2 3. rewrite heat_control_eq by exact Hlen1. simpl.
  rewrite H1l, H1r. repeat split.
  unfold s2. rewrite heat_control_eq by exact Hlen1. simpl. reflexivity.
Qed.

(** *** The invariant of the arrays *)

Lemma setup_wf : wf_state (setup power_on).
Proof. split; reflexivity. Qed.

Lemma loop_wf (b : Board) (s : State) (e : Env) :
  wf_state s -> wf_state (loop b s e).
Proof.
  intros [Hh He]. split.
  - assert (Hin : length (SpikeHistory (after_input b s e))
                  = Z.to_nat TriggerFrequency).
    { unfold after_input. simpl. rewrite InputCheck_completes.
      destruct (SpikeUp s && _); simpl;
        [now rewrite PushDown_length|].
      destruct (negb (SpikeUp s) && _); exact Hh. }
    destruct (after_input_frame b s e) as (_ & _ & _ & _ & Hhe & _).
    destruct (sanity_rejects b s e) eqn:Hrej.
    + rewrite (loop_rejected b s e Hrej).
      destruct (sanity_failure_fields (read_temperatures (after_input b s e) e))
        as (_ & _ & Hsh & _); [simpl in *; congruence|].
      rewrite Hsh. exact Hin.
    + rewrite (loop_completed b s e Hrej).
      set (s1 := if read_due s e then read_temperatures (after_input b s e) e
                 else after_input b s e).
      assert (H1 : HeaterEnable s1 = HeaterEnable s
                   /\ SpikeHistory s1 = SpikeHistory (after_input b s e)).
      { unfold s1. destruct (read_due s e); simpl in *; auto. }
      destruct H1 as [H1e H1h].
      assert (Hlen1 : length (HeaterEnable s1) = Z.to_nat NumHeaterPins)
        by now rewrite H1e.
      destruct (debug_report_frame
                  (drive_outputs b (heat_control (triggered b s e) s1 e)) e)
        as (_ & _ & _ & _ & _ & _ & D).
      destruct (drive_outputs_frame b (heat_control (triggered b s e) s1 e))
        as (_ & _ & _ & _ & _ & _ & _ & O);
        [rewrite heat_control_eq by exact Hlen1; reflexivity|].
      simpl in *. rewrite D, O, heat_control_eq by exact Hlen1. simpl.
      now rewrite H1h.
  - destruct (sanity_rejects b s e) eqn:Hrej.
    + rewrite (loop_rejected b s e Hrej).
      destruct (after_input_frame b s e) as (_ & _ & _ & _ & Hhe & _).
      destruct (sanity_failure_fields (read_temperatures (after_input b s e) e))
        as (Hall & _); [simpl in *; congruence|].
      simpl in *. rewrite Hall. reflexivity.
    + destruct (loop_completed_fields b s e (conj Hh He) Hrej)
        as (_ & _ & _ & _ & Hall).
      rewrite Hall. reflexivity.
Qed.

Lemma run_wf (b : Board) (es : list Env) (s : State) :
  wf_state s -> wf_state (run b s es).
Proof.
  revert s. induction es as [|e es IH]; intros s Hwf; simpl; [exact Hwf|].
  apply IH, loop_wf, Hwf.
Qed.

Lemma run_app (b : Board) (es es' : list Env) (s : State) :
  run b s (es ++ es') = run b (run b s es) es'.
Proof. revert s. induction es as [|e es IH]; intros s; simpl; auto. Qed.

Lemma quiet_app (b : Board) (es es' : list Env) (s : State) :
  quiet b s (es ++ es') = quiet b s es && quiet b (run b s es) es'.
Proof.
  revert s. induction es as [|e es IH]; intros s; simpl; [reflexivity|].
  now rewrite IH, andb_assoc.
Qed.

(** *** The heat session stamp *)

(** [HeatEnableTime] changes in one way only: a pass in which
    [InputCheck()] returned true and which was not ended by the failed
    sanity branch stores its [millis()]. *)
Lemma loop_stamp (b : Board) (s : State) (e : Env) :
  wf_state s ->
  HeatEnableTime (loop b s e) =
    if triggered b s e && negb (sanity_rejects b s e)
    then millis_trigger e else HeatEnableTime s.
Proof.
  intros Hwf. destruct (sanity_rejects b s e) eqn:Hrej.
  - rewrite andb_false_r, (loop_rejected b s e Hrej).
    destruct (after_input_frame b s e) as (_ & Hhet & _ & _ & Hhe & _).
    destruct (sanity_failure_fields (read_temperatures (after_input b s e) e))
      as (_ & _ & _ & _ & Hkeep & _);
      [destruct Hwf; simpl in *; congruence|].
    simpl in *. congruence.
  - rewrite andb_true_r.
    now destruct (loop_completed_fields b s e Hwf Hrej) as (Hs & _).
Qed.

Lemma run_quiet_stamp (b : Board) (es : list Env) (s : State) :
  wf_state s -> quiet b s es = true ->
  HeatEnableTime (run b s es) = HeatEnableTime s.
Proof.
  revert s. induction es as [|e es IH]; intros s Hwf Hq; simpl; [reflexivity|].
  simpl in Hq. apply andb_true_iff in Hq as [Hno Hq].
  rewrite IH by (auto using loop_wf).
  rewrite loop_stamp by exact Hwf.
  apply negb_true_iff in Hno. now rewrite Hno.
Qed.

(** Without wrap-around the test of line 131 is a test on the elapsed
    time. *)
Lemma heat_window_elapsed (now stamp : Z) :
  0 <= stamp -> stamp + HeatOnDuration < ULONG_MODULUS ->
  (if now <? ulong (stamp + HeatOnDuration) then HeatTarget else StandByTarget)
  = target_for (now - stamp).
Proof.
  intros H0 H1. rewrite ulong_small by (unfold HeatOnDuration in *; lia).
  unfold target_for.
  destruct (Z.ltb_spec now (stamp + HeatOnDuration));
    destruct (Z.ltb_spec (now - stamp) HeatOnDuration); lia || reflexivity.
Qed.

(** *** The target temperature *)

(** C2 (as amended). On a pass that reaches the target computation, and
    provided [HeatEnableTime + HeatOnDuration] does not exceed the range of
    [unsigned long], [TargetTempature] is [HeatTarget] if the time elapsed
    since [HeatEnableTime] is strictly less than [HeatOnDuration] and
    [StandByTarget] otherwise, where [HeatEnableTime] is this pass's
    [millis()] if [InputCheck()] returned true and the stored value if
    not.  Hence, as long as no later pass triggers, every later pass that
    reaches the target computation has the heating setpoint while less
    than [HeatOnDuration] has elapsed since that stamp and the standby
    setpoint from then on. *)
Theorem target_follows_hold_window
    (b : Board) (s : State) (e : Env) (es : list Env) (e' : Env) :
  wf_state s ->
  sanity_rejects b s e = false ->
  0 <= HeatEnableTime (loop b s e) ->
  HeatEnableTime (loop b s e) + HeatOnDuration < ULONG_MODULUS ->
  quiet b (loop b s e) (es ++ [e']) = true ->
  sanity_rejects b (run b (loop b s e) es) e' = false ->
  HeatEnableTime (loop b s e)
    = (if triggered b s e then millis_trigger e else HeatEnableTime s)
  /\ TargetTempature (loop b s e)
     = target_for (millis_target e - HeatEnableTime (loop b s e))
  /\ TargetTempature (loop b (run b (loop b s e) es) e')
     = target_for (millis_target e' - HeatEnableTime (loop b s e)).
Proof.
  intros Hwf Hok H0 H1 Hq Hok'.
  destruct (loop_completed_fields b s e Hwf Hok) as (Hs & Ht & _).
  split; [exact Hs|]. split.
  - rewrite Ht. now apply heat_window_elapsed.
  - rewrite quiet_app in Hq. apply andb_true_iff in Hq as [Hq Hlast].
    simpl in Hlast. rewrite andb_true_r in Hlast.
    apply negb_true_iff in Hlast.
    assert (Hwf1 : wf_state (loop b s e)) by now apply loop_wf.
    assert (Hwf2 : wf_state (run b (loop b s e) es)) by now apply run_wf.
    destruct (loop_completed_fields b _ e' Hwf2 Hok') as (Hs' & Ht' & _).
    rewrite Hlast, (run_quiet_stamp b es _ Hwf1 Hq) in Hs'.
    rewrite Ht', Hs'. now apply heat_window_elapsed.
Qed.

Lemma target_follows_hold_window_witness :
  HeatEnableTime (loop avr (spike_open avr) (pass_at 600 50 22 23)) = 600
  /\ TargetTempature (loop avr (spike_open avr) (pass_at 600 50 22 23))
     = target_for (600 - 600)
  /\ TargetTempature
       (loop avr
          (run avr (loop avr (spike_open avr) (pass_at 600 50 22 23))
             [pass_at 5000 0 22 23; pass_at 15599 0 22 23])
          (pass_at 15600 0 22 23))
     = target_for (15600 - 600).
Proof.
  apply (target_follows_hold_window avr (spike_open avr)
           (pass_at 600 50 22 23)
           [pass_at 5000 0 22 23; pass_at 15599 0 22 23]
           (pass_at 15600 0 22 23)).
  - split; reflexivity.
  - reflexivity.
  - vm_compute. discriminate.
  - vm_compute. reflexivity.
  - reflexivity.
  - reflexivity.
Defined.

(** C2 (as stated) fails. A spike completes 1000 ms before the counter
    wraps: [InputCheck()] returns true on either board, the stamp is taken,
    no time at all has elapsed, and the target is the standby setpoint,
    because [HeatEnableTime + HeatOnDuration] wrapped to 14000. *)
Lemma hold_window_lost_at_wrap :
  let e := pass_at 4294966296 50 22 23 in
  (triggered arm32 near_wrap e = true /\ triggered avr near_wrap e = true)
  /\ sanity_rejects arm32 near_wrap e = false
  /\ HeatEnableTime (loop arm32 near_wrap e) = millis_target e
  /\ target_for (millis_target e - HeatEnableTime (loop arm32 near_wrap e))
     = HeatTarget
  /\ TargetTempature (loop arm32 near_wrap e) = StandByTarget
  /\ TargetTempature (loop avr near_wrap e) = StandByTarget.
Proof. repeat split. Qed.

(** *** The heater flags *)

(** C4. After every pass the centre flag is the conjunction of the two
    side flags, whether the pass derived the flags or cleared them in the
    failed sanity branch. *)
Theorem center_flag_is_conjunction (b : Board) (s : State) (e : Env) :
  wf_state s ->
  flag_get (HeaterEnable (loop b s e)) 2
  = flag_get (HeaterEnable (loop b s e)) 0
    && flag_get (HeaterEnable (loop b s e)) 1.
Proof.
  intros Hwf. destruct (sanity_rejects b s e) eqn:Hrej.
  - rewrite (loop_rejected b s e Hrej).
    destruct (after_input_frame b s e) as (_ & _ & _ & _ & Hhe & _).
    destruct (sanity_failure_fields (read_temperatures (after_input b s e) e))
      as (Hall & _); [destruct Hwf; simpl in *; congruence|].
    rewrite Hall. reflexivity.
  - destruct (loop_completed_fields b s e Hwf Hrej) as (_ & _ & _ & _ & Hall).
    rewrite Hall. reflexivity.
Qed.

Lemma center_flag_is_conjunction_witness :
  flag_get (HeaterEnable (loop avr (setup power_on) (pass_at 1500 150 30 23))) 2
  = flag_get (HeaterEnable (loop avr (setup power_on) (pass_at 1500 150 30 23))) 0
    && flag_get (HeaterEnable (loop avr (setup power_on) (pass_at 1500 150 30 23))) 1.
Proof.
  apply (center_flag_is_conjunction avr (setup power_on) (pass_at 1500 150 30 23)).
  exact setup_wf.
Defined.

(** The globals after a pass ended by the failed sanity branch. *)
Lemma loop_rejected_fields (b : Board) (s : State) (e : Env) :
  wf_state s ->
  sanity_rejects b s e = true ->
  HeaterEnable (loop b s e) = [false; false; false]
  /\ HeatEnableTime (loop b s e) = HeatEnableTime s
  /\ TargetTempature (loop b s e) = TargetTempature s
  /\ PinLevel (loop b s e) = <[LED_BUILTIN b := LOW]> (PinLevel s)
  /\ LastDebugMsg (loop b s e) = LastDebugMsg s
  /\ SerialOut (loop b s e)
     = SerialOut s ++ [SanityFailedMsg (temp_left e) (temp_right e)]
  /\ LeftTempature (loop b s e) = temp_left e
  /\ RightTempature (loop b s e) = temp_right e
  /\ LastTempatureReadTime (loop b s e) = millis_read e.
Proof.
  intros [_ Hlen] Hrej. rewrite (loop_rejected b s e Hrej).
  destruct (after_input_frame b s e)
    as (Hd & Hhet & _ & Htt & Hhe & _ & _ & Hpin & Hser).
  destruct (sanity_failure_fields (read_temperatures (after_input b s e) e))
    as (Hall & _ & _ & Fd & Fhet & Flrt & Ftt & Fl & Fr & Fpin & Fser);
    [simpl in *; congruence|].
  rewrite Hall, Fd, Fhet, Flrt, Ftt, Fl, Fr, Fpin, Fser. simpl in *.
  repeat split; congruence.
Qed.

(** C5. On a pass that writes no memory outside [SpikeHistory]
    ([PushDown] is not called or stores in bounds), that reads the
    temperatures and whose readings fail [TempSanityCheck], all heater
    flags are cleared and the rest of the
    pass is skipped: [HeatEnableTime] and [TargetTempature] keep their
    values, no heater pin is driven (the only pin written is the LED, set
    low at the top of the pass), no status line is printed and
    [LastDebugMsg] keeps its value. *)
Theorem rejected_pass_clears_flags_only (b : Board) (s : State) (e : Env) :
  wf_state s ->
  pass_in_bounds b s e = true ->
  sanity_rejects b s e = true ->
  HeaterEnable (loop b s e) = [false; false; false]
  /\ HeatEnableTime (loop b s e) = HeatEnableTime s
  /\ TargetTempature (loop b s e) = TargetTempature s
  /\ PinLevel (loop b s e) = <[LED_BUILTIN b := LOW]> (PinLevel s)
  /\ LastDebugMsg (loop b s e) = LastDebugMsg s
  /\ SerialOut (loop b s e)
     = SerialOut s ++ [SanityFailedMsg (temp_left e) (temp_right e)].
Proof.
  intros Hwf _ Hrej.
  destruct (loop_rejected_fields b s e Hwf Hrej)
    as (H1 & H2 & H3 & H4 & H5 & H6 & _).
  repeat split; assumption.
Qed.

Lemma rejected_pass_clears_flags_only_witness :
  let s := loop arm32 (spike_open arm32) (pass_at 600 50 22 23) in
  let e := pass_at 1700 0 (-127) 22 in
  HeaterEnable s = [true; true; true]
  /\ HeaterEnable (loop arm32 s e) = [false; false; false]
  /\ HeatEnableTime (loop arm32 s e) = HeatEnableTime s
  /\ TargetTempature (loop arm32 s e) = TargetTempature s
  /\ PinLevel (loop arm32 s e) = <[LED_BUILTIN arm32 := LOW]> (PinLevel s)
  /\ LastDebugMsg (loop arm32 s e) = LastDebugMsg s
  /\ SerialOut (loop arm32 s e)
     = SerialOut s ++ [SanityFailedMsg (temp_left e) (temp_right e)].
Proof.
  split; [reflexivity|].
  apply (rejected_pass_clears_flags_only arm32
           (loop arm32 (spike_open arm32) (pass_at 600 50 22 23))
           (pass_at 1700 0 (-127) 22)).
  - split; reflexivity.
  - reflexivity.
  - reflexivity.
Defined.

(** C6 (as amended). On a pass that reads the temperatures, the flags are
    derived from the new readings only if the readings pass
    [TempSanityCheck]; if they fail it, the derivation is skipped on that
    pass and the vector is not kept but set to all false. *)
Theorem read_pass_flags (b : Board) (s : State) (e : Env) :
  wf_state s ->
  read_due s e = true ->
  HeaterEnable (loop b s e) =
    if TempSanityCheck b (temp_left e) (temp_right e) then
      [temp_left e <? TargetTempature (loop b s e);
       temp_right e <? TargetTempature (loop b s e);
       (temp_left e <? TargetTempature (loop b s e))
         && (temp_right e <? TargetTempature (loop b s e))]
    else [false; false; false].
Proof.
  intros Hwf Hdue.
  destruct (TempSanityCheck b (temp_left e) (temp_right e)) eqn:Hsane.
  - assert (Hok : sanity_rejects b s e = false)
      by (unfold sanity_rejects; now rewrite Hsane, andb_false_r).
    destruct (loop_completed_fields b s e Hwf Hok) as (_ & _ & _ & _ & Hall).
    rewrite Hdue in Hall. exact Hall.
  - assert (Hrej : sanity_rejects b s e = true)
      by (unfold sanity_rejects; now rewrite Hsane, Hdue).
    rewrite (loop_rejected b s e Hrej).
    destruct (after_input_frame b s e) as (_ & _ & _ & _ & Hhe & _).
    destruct (sanity_failure_fields (read_temperatures (after_input b s e) e))
      as (Hall & _); [destruct Hwf; simpl in *; congruence|].
    exact Hall.
Qed.

Lemma read_pass_flags_witness :
  HeaterEnable (loop avr (setup power_on) (pass_at 1500 0 22 30)) =
    if TempSanityCheck avr 22 30 then
      [22 <? TargetTempature (loop avr (setup power_on) (pass_at 1500 0 22 30));
       30 <? TargetTempature (loop avr (setup power_on) (pass_at 1500 0 22 30));
       (22 <? TargetTempature (loop avr (setup power_on) (pass_at 1500 0 22 30)))
         && (30 <? TargetTempature (loop avr (setup power_on) (pass_at 1500 0 22 30)))]
    else [false; false; false].
Proof.
  apply (read_pass_flags avr (setup power_on) (pass_at 1500 0 22 30)).
  - exact setup_wf.
  - reflexivity.
Defined.

(** C6 (as stated) fails. A pass at t=500 switches all three flags on.
    The pass at t=2000 reads -127 and 22, which [TempSanityCheck] rejects:
    the vector is not kept, it becomes all false.  On the pass at t=2001
    no read is due, so the rejected check is still the most recent one,
    and the flags are derived again, from the stored -127 and 22: all
    three are on and the heater pins are driven high. *)
Lemma rejected_readings_are_used :
  let s1 := loop arm32 (setup power_on) (pass_at 500 0 22 23) in
  let s2 := loop arm32 s1 (pass_at 2000 0 (-127) 22) in
  let s3 := loop arm32 s2 (pass_at 2001 0 22 23) in
  HeaterEnable s1 = [true; true; true]
  /\ (sanity_rejects arm32 s1 (pass_at 2000 0 (-127) 22) = true
      /\ HeaterEnable s2 = [false; false; false])
  /\ (read_due s2 (pass_at 2001 0 22 23) = false
      /\ (LeftTempature s3 = -127 /\ RightTempature s3 = 22)
      /\ HeaterEnable s3 = [true; true; true]
      /\ (PinLevel s3 !! 9 = Some HIGH /\ PinLevel s3 !! 10 = Some HIGH
          /\ PinLevel s3 !! 11 = Some HIGH)).
Proof. repeat split. Qed.

(** *** The trigger stamp *)

(** C7 (as amended). On every pass in which [InputCheck()] returns true
    and which is not ended by the failed sanity branch, [HeatEnableTime]
    is set to the current time, whatever it held before: there is no
    cooldown. *)
Theorem trigger_restarts_hold_window (b : Board) (s : State) (e : Env) :
  wf_state s ->
  triggered b s e = true ->
  sanity_rejects b s e = false ->
  HeatEnableTime (loop b s e) = millis_trigger e.
Proof.
  intros Hwf Htrig Hok. rewrite loop_stamp by exact Hwf.
  now rewrite Htrig, Hok.
Qed.

Lemma trigger_restarts_hold_window_witness :
  HeatEnableTime (loop avr (spike_open avr) (pass_at 600 50 22 23)) = 600.
Proof.
  apply (trigger_restarts_hold_window avr (spike_open avr)
           (pass_at 600 50 22 23)).
  - split; reflexivity.
  - reflexivity.
  - reflexivity.
Defined.

(** C7 (as stated) fails. [InputCheck()] returns true on a pass whose
    temperature read fails the sanity check: the pass returns before the
    stamp, and [HeatEnableTime] keeps its old value. *)
Lemma trigger_lost_on_rejected_pass :
  (let s := loop avr (setup power_on) (pass_at 1500 150 22 23) in
   let e := pass_at 2600 50 (-127) 22 in
   triggered avr s e = true /\ sanity_rejects avr s e = true
   /\ HeatEnableTime s = 0 /\ millis_trigger e = 2600
   /\ HeatEnableTime (loop avr s e) = 0)
  /\ (let e := pass_at 4294966296 50 (-127) 22 in
      let s := set_LastTempatureReadTime 4294960000 near_wrap in
      triggered arm32 s e = true /\ sanity_rejects arm32 s e = true
      /\ HeatEnableTime s = 4294900000 /\ millis_trigger e = 4294966296
      /\ HeatEnableTime (loop arm32 s e) = 4294900000).
Proof. repeat split. Qed.

(** *** The heater pins *)

(** C10. Provided the LED pin is not one of the heater pins, a pass ended
    by the failed sanity branch clears all flags and writes no heater pin:
    each keeps the level an earlier pass gave it.  The heater pins are
    written only by a pass that gets past the sanity check, and such a
    pass leaves each heater pin at the level of its flag. *)
Theorem heater_pins_written_past_sanity_only
    (b : Board) (s : State) (e : Env) :
  wf_state s ->
  LED_BUILTIN b ∉ HeaterPin ->
  if sanity_rejects b s e then
    HeaterEnable (loop b s e) = [false; false; false]
    /\ forall i, 0 <= i < NumHeaterPins ->
         PinLevel (loop b s e) !! array_get HeaterPin i
         = PinLevel s !! array_get HeaterPin i
  else
    forall i, 0 <= i < NumHeaterPins ->
      PinLevel (loop b s e) !! array_get HeaterPin i
      = Some (flag_get (HeaterEnable (loop b s e)) i).
Proof.
  intros Hwf Hled. destruct (sanity_rejects b s e) eqn:Hrej.
  - destruct (loop_rejected_fields b s e Hwf Hrej)
      as (Hall & _ & _ & Hpin & _).
    split; [exact Hall|]. intros i Hi. rewrite Hpin.
    apply LED_apart in Hled as (H9 & H10 & H11).
    assert (Hcases : i = 0 \/ i = 1 \/ i = 2)
      by (unfold NumHeaterPins in Hi; lia).
    destruct Hcases as [-> | [-> | ->]]; simpl;
      now rewrite lookup_insert_ne.
  - intros i Hi. rewrite (loop_completed b s e Hrej).
    destruct Hwf as [Hh Hlen].
    destruct (after_input_frame b s e) as (_ & _ & _ & _ & Hhe & _).
    set (s1 := if read_due s e then read_temperatures (after_input b s e) e
               else after_input b s e).
    assert (H1e : HeaterEnable s1 = HeaterEnable s)
      by (unfold s1; destruct (read_due s e); simpl in *; auto).
    assert (Hlen1 : length (HeaterEnable s1) = Z.to_nat NumHeaterPins)
      by now rewrite H1e.
    set (s2 := heat_control (triggered b s e) s1 e).
    assert (Hlen2 : length (HeaterEnable s2) = Z.to_nat NumHeaterPins)
      by (unfold s2; rewrite heat_control_eq by exact Hlen1; reflexivity).
    destruct (debug_report_frame (drive_outputs b s2) e)
      as (D1 & _ & _ & _ & _ & D6 & _).
    destruct (drive_outputs_frame b s2 Hlen2) as (O1 & _).
    simpl in D1, D6, O1. rewrite D1, D6, O1.
    now apply drive_outputs_pins.
Qed.

Lemma avr_LED_apart : LED_BUILTIN avr ∉ HeaterPin.
Proof.
  unfold HeaterPin. intros H.
  repeat (apply elem_of_cons in H as [H | H]; [discriminate|]).
  now apply elem_of_nil in H.
Qed.

Lemma heater_pins_written_past_sanity_only_witness :
  let s := loop avr (spike_open avr) (pass_at 600 50 22 23) in
  let e := pass_at 1700 0 (-127) 22 in
  (PinLevel s !! 9 = Some HIGH /\ PinLevel s !! 10 = Some HIGH
   /\ PinLevel s !! 11 = Some HIGH)
  /\ HeaterEnable (loop avr s e) = [false; false; false]
  /\ forall i, 0 <= i < NumHeaterPins ->
       PinLevel (loop avr s e) !! array_get HeaterPin i
       = PinLevel s !! array_get HeaterPin i.
Proof.
  split; [repeat split|].
  apply (heater_pins_written_past_sanity_only avr
           (loop avr (spike_open avr) (pass_at 600 50 22 23))
           (pass_at 1700 0 (-127) 22)).
  - split; reflexivity.
  - exact avr_LED_apart.
Defined.

(** ** Further properties of the sketch *)

(** *** The spike latch *)

(** X3. After a call of [InputCheck], [SpikeUp] follows the comparison of
    the sample with the threshold, except at equality, where it keeps the
    value it had. *)
Theorem SpikeUp_follows_signal (b : Board) (s : State) (v now : Z) :
  SpikeUp (snd (InputCheck b s v now))
  = (v >? TriggerThreshold) || (SpikeUp s && (v =? TriggerThreshold)).
Proof.
  rewrite InputCheck_completes.
  destruct (SpikeUp s) eqn:Hup; simpl;
    destruct (Z.ltb_spec v TriggerThreshold);
    destruct (Z.gtb_spec v TriggerThreshold);
    destruct (Z.eqb_spec v TriggerThreshold); simpl; rewrite ?Hup;
    lia || reflexivity.
Qed.

(** What [loop()] leaves in the two globals of [InputCheck] is what
    [InputCheck] left there. *)
Lemma drive_outputs_globals (b : Board) (s : State) :
  exists pins,
    drive_outputs b s =
      mkState (SpikeUp s) (SpikeHistory s) (LastDebugMsg s) (HeatEnableTime s)
        (LastTempatureReadTime s) (TargetTempature s) (HeaterEnable s)
        (HeatOn s) (LeftTempature s) (RightTempature s) pins (SerialOut s).
Proof.
  unfold drive_outputs, for_upto.
  generalize (seq 0 (Z.to_nat NumHeaterPins)). intros l. revert s.
  induction l as [|i l IH]; intros s; simpl.
  - exists (PinLevel s). now destruct s.
  - destruct (flag_get (HeaterEnable s) (Z.of_nat i));
      match goal with
      | |- context [foldl _ ?s1 l] => destruct (IH s1) as [pins Hp]
      end; rewrite Hp; simpl; eauto.
Qed.

Lemma heat_control_input (t : bool) (s : State) (e : Env) :
  SpikeUp (heat_control t s e) = SpikeUp s
  /\ SpikeHistory (heat_control t s e) = SpikeHistory s
  /\ LastTempatureReadTime (heat_control t s e) = LastTempatureReadTime s
  /\ PinLevel (heat_control t s e) = PinLevel s
  /\ SerialOut (heat_control t s e) = SerialOut s
  /\ LastDebugMsg (heat_control t s e) = LastDebugMsg s.
Proof.
  unfold heat_control. destruct s; simpl. destruct t; simpl;
    repeat match goal with
           | |- context [if ?c then _ else _] => destruct c; simpl
           end; repeat split.
Qed.

Lemma loop_input_fields (b : Board) (s : State) (e : Env) :
  SpikeUp (loop b s e) = SpikeUp (snd (InputCheck b s (analog e) (millis_spike e)))
  /\ SpikeHistory (loop b s e)
     = SpikeHistory (snd (InputCheck b s (analog e) (millis_spike e))).
Proof.
  unfold loop.
  destruct (InputCheck b s (analog e) (millis_spike e)) as [t s0]. simpl.
  assert (Hrest : forall s1,
    SpikeUp (debug_report (drive_outputs b (heat_control t s1 e)) e) = SpikeUp s1
    /\ SpikeHistory (debug_report (drive_outputs b (heat_control t s1 e)) e)
       = SpikeHistory s1).
  { intros s1. destruct (heat_control_input t s1 e) as (H1 & H2 & _).
    destruct (drive_outputs_globals b (heat_control t s1 e)) as [pins Hp].
    rewrite Hp. unfold debug_report. simpl.
    destruct (millis_debug e >? _); simpl; auto. }
  destruct (millis_gate e >? _).
  - destruct (Bool.eqb _ false).
    + unfold sanity_failure, for_upto. simpl. auto.
    + destruct (Hrest (read_temperatures (digitalWrite (LED_BUILTIN b) LOW s0) e)).
      simpl in *. auto.
  - destruct (Hrest (digitalWrite (LED_BUILTIN b) LOW s0)). simpl in *. auto.
Qed.

(** X4. [InputCheck()] never returns true in two passes in a row: the
    call that fires leaves [SpikeUp] clear, and from there the next call
    can at most open a new spike. *)
Theorem no_trigger_on_consecutive_passes
    (b : Board) (s : State) (e e' : Env) :
  triggered b s e && triggered b (loop b s e) e' = false.
Proof.
  destruct (triggered b s e) eqn:Ht; [simpl|reflexivity].
  unfold triggered in *.
  assert (Hup : SpikeUp (loop b s e) = false).
  { destruct (loop_input_fields b s e) as [Hu _]. rewrite Hu.
    rewrite InputCheck_completes in Ht |- *.
    destruct (SpikeUp s && (analog e <? TriggerThreshold)); [reflexivity|].
    destruct (negb (SpikeUp s) && _); discriminate. }
  rewrite InputCheck_completes, Hup. simpl.
  now destruct (analog e' >? TriggerThreshold).
Qed.

(** *** The trigger on a board whose pointers are as wide as unsigned long *)

(** There [PushDown] stores into cell 0 only, so cell 1 of the history
    keeps the zero of [setup()] for ever. *)
Lemma equal_pointer_keeps_last_cell (b : Board) (s : State) (v now : Z) :
  sizeof_pointer b = sizeof_unsigned_long ->
  array_get (SpikeHistory (snd (InputCheck b s v now))) 1
  = array_get (SpikeHistory s) 1.
Proof.
  intros Hb. rewrite InputCheck_completes.
  destruct (SpikeUp s && _); simpl.
  - rewrite (PushDown_equal_pointer b _ _ Hb).
    unfold array_get. simpl. now rewrite list_lookup_insert_ne.
  - now destruct (negb (SpikeUp s) && _).
Qed.

Lemma equal_pointer_test_fails (b : Board) (a : list Z) (now : Z) :
  sizeof_pointer b = sizeof_unsigned_long ->
  length a = Z.to_nat TriggerFrequency ->
  array_get a 1 = 0 ->
  0 < now <= ULONG_MODULUS - TriggerTimeframe ->
  within_timeframe (PushDown b a now) = false.
Proof.
  intros Hb Hlen Hlast Hnow. rewrite (PushDown_equal_pointer b _ _ Hb).
  destruct a as [|x [|y [|z a]]]; simpl in Hlen; try discriminate.
  unfold array_get in Hlast. simpl in Hlast. subst y.
  unfold within_timeframe, array_get. simpl.
  replace (ulong TriggerTimeframe) with TriggerTimeframe by reflexivity.
  apply Z.ltb_ge. unfold ulong.
  replace (0 - now) with (ULONG_MODULUS - now + -1 * ULONG_MODULUS) by lia.
  rewrite Z.mod_add by (rewrite ULONG_MODULUS_value; lia).
  unfold TriggerTimeframe in *. rewrite ULONG_MODULUS_value in *.
  rewrite Z.mod_small by lia. lia.
Qed.

(** X5. On a board whose data pointers have the size of [unsigned long]
    (the 32-bit boards), no pass after [setup()] ever has [InputCheck()]
    return true, whatever the samples, as long as [millis()] has neither
    its first value 0 nor one of its last [TriggerTimeframe] values
    before the wrap: the time stamps go to cell 0 of the history and the
    test subtracts them from the zero of cell 1. *)
Theorem equal_pointer_board_never_triggers (b : Board) (es : list Env) :
  sizeof_pointer b = sizeof_unsigned_long ->
  Forall (fun e => 0 < millis_spike e <= ULONG_MODULUS - TriggerTimeframe) es ->
  quiet b (setup power_on) es = true.
Proof.
  intros Hb.
  assert (Hlast0 : array_get (SpikeHistory (setup power_on)) 1 = 0)
    by reflexivity.
  generalize setup_wf Hlast0. generalize (setup power_on). clear Hlast0.
  induction es as [|e es IH]; intros s Hwf Hlast Hall; simpl; [reflexivity|].
  apply Forall_cons in Hall as [He Hall].
  apply andb_true_iff. split.
  - apply negb_true_iff. unfold triggered. rewrite InputCheck_completes.
    destruct (SpikeUp s && _); simpl.
    + apply equal_pointer_test_fails; auto. now destruct Hwf.
    + now destruct (negb (SpikeUp s) && _).
  - apply IH; [now apply loop_wf| |exact Hall].
    destruct (loop_input_fields b s e) as [_ Hh]. rewrite Hh.
    now rewrite equal_pointer_keeps_last_cell.
Qed.

Lemma equal_pointer_board_never_triggers_witness :
  quiet arm32 (setup power_on)
    [pass_at 500 150 22 23; pass_at 600 50 22 23;
     pass_at 700 150 22 23; pass_at 800 50 22 23] = true.
Proof.
  apply (equal_pointer_board_never_triggers arm32
           [pass_at 500 150 22 23; pass_at 600 50 22 23;
            pass_at 700 150 22 23; pass_at 800 50 22 23]).
  - reflexivity.
  - repeat constructor; vm_compute; congruence.
Defined.

(** *** The outputs of a pass *)

(** The shape of a pass that runs to the end: the globals as the control
    part leaves them, then the output loop and the status line. *)
Lemma loop_completed_shape (b : Board) (s : State) (e : Env) :
  wf_state s ->
  sanity_rejects b s e = false ->
  exists s2,
    loop b s e = debug_report (drive_outputs b s2) e
    /\ length (HeaterEnable s2) = Z.to_nat NumHeaterPins
    /\ PinLevel s2 = <[LED_BUILTIN b := LOW]> (PinLevel s)
    /\ SerialOut s2 = SerialOut s
    /\ LastDebugMsg s2 = LastDebugMsg s
    /\ LastTempatureReadTime s2
       = (if read_due s e then millis_read e else LastTempatureReadTime s)
    /\ HeaterEnable (loop b s e) = HeaterEnable s2
    /\ TargetTempature (loop b s e) = TargetTempature s2
    /\ HeatEnableTime (loop b s e) = HeatEnableTime s2
    /\ LeftTempature (loop b s e) = LeftTempature s2
    /\ RightTempature (loop b s e) = RightTempature s2
    /\ LastTempatureReadTime (loop b s e) = LastTempatureReadTime s2
    /\ PinLevel (loop b s e) = PinLevel (drive_outputs b s2).
Proof.
  intros [Hh Hlen] Hok.
  set (s1 := if read_due s e then read_temperatures (after_input b s e) e
             else after_input b s e).
  exists (heat_control (triggered b s e) s1 e).
  destruct (after_input_frame b s e)
    as (Hd & _ & Hlrt & _ & Hhe & _ & _ & Hpin & Hser).
  assert (H1 : HeaterEnable s1 = HeaterEnable s
               /\ PinLevel s1 = <[LED_BUILTIN b := LOW]> (PinLevel s)
               /\ SerialOut s1 = SerialOut s
               /\ LastDebugMsg s1 = LastDebugMsg s
               /\ LastTempatureReadTime s1
                  = (if read_due s e then millis_read e
                     else LastTempatureReadTime s)).
  { unfold s1. destruct (read_due s e); simpl in *; auto. }
  destruct H1 as (H1e & H1p & H1s & H1d & H1l).
  assert (Hlen1 : length (HeaterEnable s1) = Z.to_nat NumHeaterPins)
    by now rewrite H1e.
  destruct (heat_control_input (triggered b s e) s1 e)
    as (_ & _ & C3 & C4 & C5 & C6).
  rewrite (loop_completed b s e Hok). fold s1.
  set (s2 := heat_control (triggered b s e) s1 e) in *.
  assert (Hlen2 : length (HeaterEnable s2) = Z.to_nat NumHeaterPins)
    by (unfold s2; rewrite heat_control_eq by exact Hlen1; reflexivity).
  destruct (drive_outputs_globals b s2) as [pins Hp].
  split; [reflexivity|]. split; [exact Hlen2|].
  rewrite C4, C5, C6, C3.
  repeat (split; [assumption|]).
  rewrite Hp. unfold debug_report. simpl.
  destruct (millis_debug e >? _); simpl; repeat split; assumption.
Qed.

Lemma drive_outputs_led (b : Board) (s : State) :
  length (HeaterEnable s) = Z.to_nat NumHeaterPins ->
  LED_BUILTIN b ∉ HeaterPin ->
  PinLevel (drive_outputs b s) !! LED_BUILTIN b =
    if flag_get (HeaterEnable s) 0 || flag_get (HeaterEnable s) 1
       || flag_get (HeaterEnable s) 2
    then Some HIGH else PinLevel s !! LED_BUILTIN b.
Proof.
  intros (x & y & z & Hl)%three_flags (H9 & H10 & H11)%LED_apart.
  destruct s; simpl in *; subst. unfold drive_outputs, for_upto.
  destruct x, y, z; simpl; unfold HIGH, LOW; simplify_map_eq; reflexivity.
Qed.


(** X7. Provided the LED pin is not a heater pin, the LED after a pass
    that runs to the end is high exactly when some heater flag is set; a
    pass ended by the failed sanity branch leaves the LED low, whatever
    levels the heater pins keep. *)
Theorem led_mirrors_heater_flags (b : Board) (s : State) (e : Env) :
  wf_state s ->
  LED_BUILTIN b ∉ HeaterPin ->
  PinLevel (loop b s e) !! LED_BUILTIN b =
    Some (if sanity_rejects b s e then LOW
          else flag_get (HeaterEnable (loop b s e)) 0
               || flag_get (HeaterEnable (loop b s e)) 1
               || flag_get (HeaterEnable (loop b s e)) 2).
Proof.
  intros Hwf Hled. destruct (sanity_rejects b s e) eqn:Hrej.
  - destruct (loop_rejected_fields b s e Hwf Hrej) as (_ & _ & _ & Hpin & _).
    rewrite Hpin. apply lookup_insert_eq.
  - destruct (loop_completed_shape b s e Hwf Hrej)
      as (s2 & _ & Hlen & Hp2 & _ & _ & _ & He & _ & _ & _ & _ & _ & Hpin).
    rewrite Hpin, He, (drive_outputs_led b s2 Hlen Hled), Hp2.
    rewrite lookup_insert_eq.
    now destruct (flag_get (HeaterEnable s2) 0 || _ || _).
Qed.

Lemma led_mirrors_heater_flags_witness :
  let s := loop avr (spike_open avr) (pass_at 600 50 22 23) in
  let e := pass_at 1700 0 (-127) 22 in
  PinLevel s !! LED_BUILTIN avr = Some HIGH
  /\ PinLevel (loop avr s e) !! LED_BUILTIN avr =
       Some (if sanity_rejects avr s e then LOW
             else flag_get (HeaterEnable (loop avr s e)) 0
                  || flag_get (HeaterEnable (loop avr s e)) 1
                  || flag_get (HeaterEnable (loop avr s e)) 2).
Proof.
  split; [reflexivity|].
  apply (led_mirrors_heater_flags avr
           (loop avr (spike_open avr) (pass_at 600 50 22 23))
           (pass_at 1700 0 (-127) 22)).
  - split; reflexivity.
  - exact avr_LED_apart.
Defined.

(** The heater pins after a pass that runs to the end, from the stored
    readings and the target. *)
Lemma loop_completed_pins (b : Board) (s : State) (e : Env) :
  wf_state s ->
  LED_BUILTIN b ∉ HeaterPin ->
  sanity_rejects b s e = false ->
  let s' := loop b s e in
  PinLevel s' !! 9 = Some (LeftTempature s' <? TargetTempature s')
  /\ PinLevel s' !! 10 = Some (RightTempature s' <? TargetTempature s')
  /\ PinLevel s' !! 11 =
       Some ((LeftTempature s' <? TargetTempature s')
             && (RightTempature s' <? TargetTempature s')).
Proof.
  intros Hwf Hled Hok. simpl.
  destruct (loop_completed_fields b s e Hwf Hok) as (_ & _ & Hl & Hr & Hall).
  destruct (loop_completed_shape b s e Hwf Hok)
    as (s2 & _ & Hlen & _ & _ & _ & _ & He & _ & _ & _ & _ & _ & Hpin).
  rewrite Hpin, Hl, Hr.
  rewrite Hall in He.
  pose proof (drive_outputs_pins b s2 0 Hlen Hled ltac:(unfold NumHeaterPins; lia)) as P0.
  pose proof (drive_outputs_pins b s2 1 Hlen Hled ltac:(unfold NumHeaterPins; lia)) as P1.
  pose proof (drive_outputs_pins b s2 2 Hlen Hled ltac:(unfold NumHeaterPins; lia)) as P2.
  rewrite <- He in P0, P1, P2. simpl in P0, P1, P2.
  repeat split; assumption.
Qed.

(** X8. Provided the LED pin is not a heater pin, a pass that runs to the
    end drives pin 9 high exactly when the stored left reading is below
    the target, pin 10 exactly when the stored right reading is, and pin
    11 exactly when both are. *)
Theorem completed_pass_drives_heaters (b : Board) (s : State) (e : Env) :
  wf_state s ->
  LED_BUILTIN b ∉ HeaterPin ->
  sanity_rejects b s e = false ->
  PinLevel (loop b s e) !! 9
    = Some (LeftTempature (loop b s e) <? TargetTempature (loop b s e))
  /\ PinLevel (loop b s e) !! 10
     = Some (RightTempature (loop b s e) <? TargetTempature (loop b s e))
  /\ PinLevel (loop b s e) !! 11
     = Some ((LeftTempature (loop b s e) <? TargetTempature (loop b s e))
             && (RightTempature (loop b s e) <? TargetTempature (loop b s e))).
Proof. intros Hwf Hled Hok. now apply loop_completed_pins. Qed.

Lemma completed_pass_drives_heaters_witness :
  let s' := loop avr (setup power_on) (pass_at 1500 0 22 30) in
  PinLevel s' !! 9 = Some (LeftTempature s' <? TargetTempature s')
  /\ PinLevel s' !! 10 = Some (RightTempature s' <? TargetTempature s')
  /\ PinLevel s' !! 11
     = Some ((LeftTempature s' <? TargetTempature s')
             && (RightTempature s' <? TargetTempature s')).
Proof.
  apply (completed_pass_drives_heaters avr (setup power_on)
           (pass_at 1500 0 22 30)).
  - exact setup_wf.
  - exact avr_LED_apart.
  - reflexivity.
Defined.

(** X9. Provided the LED pin is not a heater pin, a pass that runs to
    the end never leaves a heater high on a side whose stored reading is
    at or above [HeatTarget], nor the centre heater if either side is:
    the target is never above [HeatTarget]. *)
Theorem no_heat_at_or_above_HeatTarget (b : Board) (s : State) (e : Env) :
  wf_state s ->
  LED_BUILTIN b ∉ HeaterPin ->
  sanity_rejects b s e = false ->
  (HeatTarget <= LeftTempature (loop b s e) ->
     PinLevel (loop b s e) !! 9 = Some LOW)
  /\ (HeatTarget <= RightTempature (loop b s e) ->
     PinLevel (loop b s e) !! 10 = Some LOW)
  /\ (HeatTarget <= LeftTempature (loop b s e)
      \/ HeatTarget <= RightTempature (loop b s e) ->
     PinLevel (loop b s e) !! 11 = Some LOW).
Proof.
  intros Hwf Hled Hok.
  destruct (loop_completed_pins b s e Hwf Hled Hok) as (P9 & P10 & P11).
  destruct (loop_completed_fields b s e Hwf Hok) as (_ & Ht & _).
  assert (Hle : TargetTempature (loop b s e) <= HeatTarget).
  { rewrite Ht. destruct (millis_target e <? _);
      unfold HeatTarget, StandByTarget; lia. }
  rewrite P9, P10, P11. unfold LOW.
  repeat split; intros H; f_equal.
  - apply Z.ltb_ge. lia.
  - apply Z.ltb_ge. lia.
  - apply andb_false_iff. rewrite !Z.ltb_ge. lia.
Qed.

Lemma no_heat_at_or_above_HeatTarget_witness :
  let s' := loop avr (setup power_on) (pass_at 1500 0 33 30) in
  (HeatTarget <= LeftTempature s' -> PinLevel s' !! 9 = Some LOW)
  /\ (HeatTarget <= RightTempature s' -> PinLevel s' !! 10 = Some LOW)
  /\ (HeatTarget <= LeftTempature s' \/ HeatTarget <= RightTempature s' ->
      PinLevel s' !! 11 = Some LOW).
Proof.
  apply (no_heat_at_or_above_HeatTarget avr (setup power_on)
           (pass_at 1500 0 33 30)).
  - exact setup_wf.
  - exact avr_LED_apart.
  - reflexivity.
Defined.




(** *** The serial output *)

(** X11. A pass that writes no memory outside [SpikeHistory] prints at
    most one line: the failure message if it is
    ended by the failed sanity branch; otherwise the status line, with
    the values the pass has just computed, if more than [DebugDelay] has
    passed since [LastDebugMsg], which is then stamped; otherwise
    nothing. *)
Theorem one_serial_line_per_pass (b : Board) (s : State) (e : Env) :
  wf_state s ->
  pass_in_bounds b s e = true ->
  let s' := loop b s e in
  let due := millis_debug e >? ulong (LastDebugMsg s + DebugDelay) in
  SerialOut s' =
    SerialOut s ++
      (if sanity_rejects b s e then
         [SanityFailedMsg (temp_left e) (temp_right e)]
       else if due then
         [StatusMsg (TargetTempature s')
            (ulong (HeatEnableTime s' + HeatOnDuration - millis_left e))
            (LeftTempature s') (flag_get (HeaterEnable s') 0)
            (RightTempature s') (flag_get (HeaterEnable s') 1)
            (flag_get (HeaterEnable s') 2)]
       else [])
  /\ LastDebugMsg s' =
       (if negb (sanity_rejects b s e) && due then millis_stamp e
        else LastDebugMsg s).
Proof.
  intros Hwf _. simpl. destruct (sanity_rejects b s e) eqn:Hrej; simpl.
  - destruct (loop_rejected_fields b s e Hwf Hrej)
      as (_ & _ & _ & _ & Hd & Hs & _).
    now rewrite Hd, Hs.
  - destruct (loop_completed_shape b s e Hwf Hrej)
      as (s2 & Heq & _ & _ & Hs2 & Hd2 & _ & He & Ht & Hh & Hl & Hr & _).
    rewrite He, Ht, Hh, Hl, Hr, Heq.
    destruct (drive_outputs_globals b s2) as [pins Hp]. rewrite Hp.
    unfold debug_report. simpl. rewrite Hd2.
    destruct (millis_debug e >? _); simpl; rewrite Hs2, ?app_nil_r;
      split; auto.
Qed.

Lemma one_serial_line_per_pass_witness :
  let s := setup power_on in
  let e := pass_at 1500 0 22 30 in
  let s' := loop avr s e in
  let due := millis_debug e >? ulong (LastDebugMsg s + DebugDelay) in
  SerialOut s' =
    SerialOut s ++
      (if sanity_rejects avr s e then
         [SanityFailedMsg (temp_left e) (temp_right e)]
       else if due then
         [StatusMsg (TargetTempature s')
            (ulong (HeatEnableTime s' + HeatOnDuration - millis_left e))
            (LeftTempature s') (flag_get (HeaterEnable s') 0)
            (RightTempature s') (flag_get (HeaterEnable s') 1)
            (flag_get (HeaterEnable s') 2)]
       else [])
  /\ LastDebugMsg s' =
       (if negb (sanity_rejects avr s e) && due then millis_stamp e
        else LastDebugMsg s).
Proof.
  apply (one_serial_line_per_pass avr (setup power_on) (pass_at 1500 0 22 30)).
  - exact setup_wf.
  - reflexivity.
Defined.

(** X12. On a pass that writes no memory outside [SpikeHistory]: once
    the hold window is over, the "Heat Time Left" of the status line
    does not stop at zero: the subtraction is on [unsigned
    long], so the line reports [2 ^ 32] minus the time by which the
    window has been exceeded. *)
Theorem time_left_wraps_after_window (b : Board) (s : State) (e : Env) :
  wf_state s ->
  pass_in_bounds b s e = true ->
  sanity_rejects b s e = false ->
  (millis_debug e >? ulong (LastDebugMsg s + DebugDelay)) = true ->
  0 <= HeatEnableTime (loop b s e) ->
  HeatEnableTime (loop b s e) + HeatOnDuration < millis_left e ->
  millis_left e < ULONG_MODULUS ->
  exists target left h0 right h1 h2,
    SerialOut (loop b s e) =
      SerialOut s ++
        [StatusMsg target
           (ULONG_MODULUS
            - (millis_left e - (HeatEnableTime (loop b s e) + HeatOnDuration)))
           left h0 right h1 h2].
Proof.
  intros Hwf _ Hok Hdue H0 Hover Hlt.
  destruct (loop_completed_shape b s e Hwf Hok)
    as (s2 & Heq & _ & _ & Hs2 & Hd2 & _ & _ & _ & Hh & _).
  rewrite Hh in *. rewrite Heq.
  destruct (drive_outputs_globals b s2) as [pins Hp]. rewrite Hp.
  unfold debug_report. simpl. rewrite Hd2, Hdue. simpl. rewrite Hs2.
  do 6 eexists. f_equal. f_equal. f_equal.
  unfold ulong, HeatOnDuration in *. rewrite ULONG_MODULUS_value in *.
  replace (HeatEnableTime s2 + 15000 - millis_left e)
    with (4294967296 - (millis_left e - (HeatEnableTime s2 + 15000))
          + -1 * 4294967296) by lia.
  rewrite Z.mod_add by lia. apply Z.mod_small. lia.
Qed.

Lemma time_left_wraps_after_window_witness :
  exists target left h0 right h1 h2,
    SerialOut (loop avr (setup power_on) (pass_at 20000 0 22 23)) =
      SerialOut (setup power_on) ++
        [StatusMsg target
           (ULONG_MODULUS
            - (20000
               - (HeatEnableTime (loop avr (setup power_on)
                                    (pass_at 20000 0 22 23))
                  + HeatOnDuration)))
           left h0 right h1 h2].
Proof.
  apply (time_left_wraps_after_window avr (setup power_on)
           (pass_at 20000 0 22 23)).
  - exact setup_wf.
  - reflexivity.
  - reflexivity.
  - reflexivity.
  - vm_compute. discriminate.
  - vm_compute. reflexivity.
  - vm_compute. reflexivity.
Defined.

(** *** The target and the readings over time *)

(** X13. [HeatEnableTime] starts at 0, so after [setup()] the sketch
    heats without any trigger: as long as [InputCheck()] has not returned
    true, every pass that runs to the end within the first
    [HeatOnDuration] milliseconds selects [HeatTarget]. *)
Theorem power_on_selects_HeatTarget (b : Board) (es : list Env) (e : Env) :
  quiet b (setup power_on) (es ++ [e]) = true ->
  sanity_rejects b (run b (setup power_on) es) e = false ->
  millis_target e < HeatOnDuration ->
  TargetTempature (loop b (run b (setup power_on) es) e) = HeatTarget.
Proof.
  intros Hq Hok Hearly.
  rewrite quiet_app in Hq. apply andb_true_iff in Hq as [Hq Hlast].
  simpl in Hlast. rewrite andb_true_r in Hlast. apply negb_true_iff in Hlast.
  assert (Hwf : wf_state (run b (setup power_on) es))
    by (apply run_wf, setup_wf).
  destruct (loop_completed_fields b _ e Hwf Hok) as (Hs & Ht & _).
  rewrite Hlast, (run_quiet_stamp b es _ setup_wf Hq) in Hs.
  rewrite Ht, Hs. simpl (HeatEnableTime (setup power_on)).
  replace (ulong (0 + HeatOnDuration)) with HeatOnDuration by reflexivity.
  apply Z.ltb_lt in Hearly. now rewrite Hearly.
Qed.

Lemma power_on_selects_HeatTarget_witness :
  TargetTempature
    (loop avr (run avr (setup power_on) [pass_at 500 0 22 23])
       (pass_at 1500 0 22 23)) = HeatTarget.
Proof.
  apply (power_on_selects_HeatTarget avr [pass_at 500 0 22 23]
           (pass_at 1500 0 22 23)).
  - reflexivity.
  - reflexivity.
  - reflexivity.
Defined.

(** X14. Over a pass that writes no memory outside [SpikeHistory], the
    stored readings and the read stamp change exactly when a read is due, and then they take the new values whether
    or not these pass [TempSanityCheck]: a rejected reading replaces the
    stored one. *)
Theorem readings_follow_read_cadence (b : Board) (s : State) (e : Env) :
  wf_state s ->
  pass_in_bounds b s e = true ->
  LeftTempature (loop b s e)
    = (if read_due s e then temp_left e else LeftTempature s)
  /\ RightTempature (loop b s e)
     = (if read_due s e then temp_right e else RightTempature s)
  /\ LastTempatureReadTime (loop b s e)
     = (if read_due s e then millis_read e else LastTempatureReadTime s).
Proof.
  intros Hwf _. destruct (sanity_rejects b s e) eqn:Hrej.
  - destruct (loop_rejected_fields b s e Hwf Hrej)
      as (_ & _ & _ & _ & _ & _ & Hl & Hr & Hlrt).
    unfold sanity_rejects in Hrej. apply andb_true_iff in Hrej as [Hdue _].
    now rewrite Hdue.
  - destruct (loop_completed_fields b s e Hwf Hrej) as (_ & _ & Hl & Hr & _).
    destruct (loop_completed_shape b s e Hwf Hrej)
      as (s2 & _ & _ & _ & _ & _ & Hlrt2 & _ & _ & _ & _ & _ & Hlrt & _).
    rewrite Hlrt, Hlrt2. auto.
Qed.

Lemma readings_follow_read_cadence_witness :
  let s := setup power_on in
  let e := pass_at 1500 0 (-127) 22 in
  sanity_rejects avr s e = true
  /\ LeftTempature (loop avr s e)
     = (if read_due s e then temp_left e else LeftTempature s)
  /\ RightTempature (loop avr s e)
     = (if read_due s e then temp_right e else RightTempature s)
  /\ LastTempatureReadTime (loop avr s e)
     = (if read_due s e then millis_read e else LastTempatureReadTime s).
Proof.
  split; [reflexivity|].
  apply (readings_follow_read_cadence avr (setup power_on)
           (pass_at 1500 0 (-127) 22)).
  - exact setup_wf.
  - reflexivity.
Defined.

(** X15. On a board where [PushDown] stores inside the two-cell history,
    after [setup()] and any number of passes, for any inputs, the target
    is the 0 of its initialiser or one of the two setpoints. *)
Theorem target_is_initial_or_setpoint (b : Board) (es : list Env) :
  1 <= PushDown_ArraySize b <= TriggerFrequency ->
  TargetTempature (run b (setup power_on) es) = 0
  \/ TargetTempature (run b (setup power_on) es) = StandByTarget
  \/ TargetTempature (run b (setup power_on) es) = HeatTarget.
Proof.
  intros _.
  assert (Hrange : forall s, wf_state s ->
    TargetTempature (run b s es) = TargetTempature s
    \/ TargetTempature (run b s es) = StandByTarget
    \/ TargetTempature (run b s es) = HeatTarget).
  { induction es as [|e es IH]; intros s Hwf; simpl; [now left|].
    destruct (IH (loop b s e) (loop_wf b s e Hwf)) as [Hsame | Hset];
      [|now right].
    rewrite Hsame. destruct (sanity_rejects b s e) eqn:Hrej.
    - destruct (loop_rejected_fields b s e Hwf Hrej) as (_ & _ & Ht & _).
      now left.
    - destruct (loop_completed_fields b s e Hwf Hrej) as (_ & Ht & _).
      right. rewrite Ht. destruct (millis_target e <? _); auto. }
  exact (Hrange (setup power_on) setup_wf).
Qed.

Lemma target_is_initial_or_setpoint_witness :
  TargetTempature
    (run arm32 (setup power_on)
       [pass_at 1500 150 (-127) 22; pass_at 2600 50 22 23;
        pass_at 20000 0 22 23]) = 0
  \/ TargetTempature
       (run arm32 (setup power_on)
          [pass_at 1500 150 (-127) 22; pass_at 2600 50 22 23;
           pass_at 20000 0 22 23]) = StandByTarget
  \/ TargetTempature
       (run arm32 (setup power_on)
          [pass_at 1500 150 (-127) 22; pass_at 2600 50 22 23;
           pass_at 20000 0 22 23]) = HeatTarget.
Proof.
  apply (target_is_initial_or_setpoint arm32
           [pass_at 1500 150 (-127) 22; pass_at 2600 50 22 23;
            pass_at 20000 0 22 23]).
  vm_compute. split; discriminate.
Defined.

